(** * Lens bar chart: data-to-presentation pipeline

    A shallow embedding of [src/renderer/components/chart/bar-chart.tsx]:
    the dataset normaliser ([chartData]), the time-axis label formatter
    ([formatTimeLabels]), the tooltip callbacks, the composition of the
    chart options ([barOptions] merged with the caller's options) and the
    two exported option bundles [memoryOptions] and [cpuOptions].

    JavaScript values are embedded as a tree type [value]; objects are
    finite maps from property names to values, arrays are lists.  Numbers
    are IEEE doubles in the source; here a finite number is given by its
    exact rational value, next to [NaN] and the two infinities.
    [toFixed] and [toPrecision] are written out after ECMAScript, which
    defines them on the exact value.  The built-ins that depend on the
    binary representation or on the environment, and the imports whose
    code is not part of the file, are the fields of [Host]; lodash's
    [merge] is written out after its documented algorithm. *)

From Stdlib Require Import ZArith QArith Qabs Qpower Ascii String.
From stdpp Require Import gmap strings list fin_maps.

#[local] Set Warnings "-register-all".
#[local] Open Scope Z_scope.

(** ** JavaScript numbers *)

Module JsNumber.

(** [Fin q] is the finite double whose exact value is [q]; [Fin 0] stands
    for both zeros, which the code below never tells apart. *)
Inductive number :=
| NaN
| Infinity (negative : bool)
| Fin (q : Q).

(** [!n] on a number: true for NaN and for zero. *)
Definition is_falsy (n : number) : bool :=
  match n with
  | NaN => true
  | Infinity _ => false
  | Fin q => Qeq_bool q 0
  end.

(** [a < b] on numbers (any comparison with NaN is false). *)
Definition num_lt (a b : number) : bool :=
  match a, b with
  | NaN, _ | _, NaN => false
  | Infinity true, Infinity true => false
  | Infinity true, _ => true
  | _, Infinity true => false
  | Infinity false, _ => false
  | Fin _, Infinity false => true
  | Fin x, Fin y => negb (Qle_bool y x)
  end.

(** [a > b]. *)
Definition num_gt (a b : number) : bool := num_lt b a.

(** [a == b] on two numbers. *)
Definition num_eq (a b : number) : bool :=
  match a, b with
  | Fin x, Fin y => Qeq_bool x y
  | Infinity s, Infinity t => Bool.eqb s t
  | _, _ => false
  end.

Definition of_Z (z : Z) : number := Fin (inject_Z z).

(** *** Decimal digits *)

Definition digit_char (d : Z) : ascii := ascii_of_nat (48 + Z.to_nat d).

Fixpoint digits_from (fuel : nat) (n : Z) (acc : string) : string :=
  match fuel with
  | O => acc
  | S fuel' =>
      let acc' := String (digit_char (n mod 10)) acc in
      if n / 10 =? 0 then acc' else digits_from fuel' (n / 10) acc'
  end.

(** The decimal representation of a natural number, most significant
    digit first, without leading zeros (["0"] for zero). *)
Definition decimal_digits (n : Z) : string :=
  digits_from (S (Z.to_nat (Z.log2 n))) n "".

Fixpoint zeros (k : nat) : string :=
  match k with
  | O => ""
  | S k' => String "0" (zeros k')
  end.

Fixpoint str_take (k : nat) (s : string) : string :=
  match k, s with
  | S k', String c s' => String c (str_take k' s')
  | _, _ => ""
  end.

Fixpoint str_drop (k : nat) (s : string) : string :=
  match k, s with
  | S k', String _ s' => str_drop k' s'
  | _, _ => s
  end.

(** *** Number.prototype.toFixed *)

(** The integer [n] for which [n / 10^f - x] is as close to zero as
    possible, the larger one when there are two ([x >= 0]). *)
Definition round_scaled (f : nat) (x : Q) : Z :=
  let num := Qnum x * 10 ^ Z.of_nat f in
  let den := Z.pos (Qden x) in
  (2 * num + den) / (2 * den).

(** Steps 8.a-8.c of Number.prototype.toFixed: the digits of [n] with a
    decimal point before the last [f] of them. *)
Definition fixed_notation (f : nat) (n : Z) : string :=
  let m := decimal_digits n in
  match f with
  | O => m
  | S _ =>
      let k := String.length m in
      let m' := if (k <=? f)%nat then (zeros (S f - k) ++ m)%string else m in
      let k' := String.length m' in
      (str_take (k' - f) m' ++ "." ++ str_drop (k' - f) m')%string
  end.

Definition ten_pow_21 : Q := inject_Z (10 ^ 21).

Section ToString.

(** [Number::toString] on a finite number: the shortest decimal that
    reads back as the same double.  It depends on the binary
    representation and is left to the host. *)
Variable finite_toString : Q -> string.

Definition toString (n : number) : string :=
  match n with
  | NaN => "NaN"
  | Infinity false => "Infinity"
  | Infinity true => "-Infinity"
  | Fin q => finite_toString q
  end.

Definition toFixed (n : number) (fractionDigits : nat) : string :=
  match n with
  | NaN => "NaN"
  | Infinity false => "Infinity"
  | Infinity true => "-Infinity"
  | Fin q =>
      let s := if Qle_bool 0 q then "" else "-" in
      let x := Qabs q in
      let m := if Qle_bool ten_pow_21 x then finite_toString x
               else fixed_notation fractionDigits (round_scaled fractionDigits x) in
      (s ++ m)%string
  end.

End ToString.

(** *** Number.prototype.toPrecision *)

Definition num_digits (n : Z) : Z := Z.of_nat (String.length (decimal_digits n)).

(** [10^k <= x] *)
Definition pow10_le (k : Z) (x : Q) : bool :=
  if 0 <=? k then Z.pos (Qden x) * 10 ^ k <=? Qnum x
  else Z.pos (Qden x) <=? Qnum x * 10 ^ (- k).

(** The [e] with [10^e <= x < 10^(e+1)], for [x > 0]. *)
Definition floor_log10 (x : Q) : Z :=
  let k := num_digits (Qnum x) - num_digits (Z.pos (Qden x)) in
  if pow10_le k x then k else k - 1.

(** The integer nearest to [x / 10^k], the larger one when there are two. *)
Definition round_shifted (k : Z) (x : Q) : Z :=
  let num := if 0 <=? k then Qnum x else Qnum x * 10 ^ (- k) in
  let den := if 0 <=? k then Z.pos (Qden x) * 10 ^ k else Z.pos (Qden x) in
  (2 * num + den) / (2 * den).

(** The [n] and [e] with [10^(p-1) <= n < 10^p] for which
    [n * 10^(e-p+1) - x] is as close to zero as possible, the larger
    [n * 10^(e-p+1)] when there are two ([x > 0]). *)
Definition precision_digits (p : nat) (x : Q) : Z * Z :=
  let e := floor_log10 x in
  let n := round_shifted (e - Z.of_nat p + 1) x in
  if n =? 10 ^ Z.of_nat p then (10 ^ (Z.of_nat p - 1), e + 1) else (n, e).

Definition toPrecision (v : number) (precision : nat) : string :=
  match v with
  | NaN => "NaN"
  | Infinity false => "Infinity"
  | Infinity true => "-Infinity"
  | Fin q =>
      let s := if Qle_bool 0 q then "" else "-" in
      let x := Qabs q in
      let me := if Qeq_bool x 0 then (zeros precision, 0)
                else (decimal_digits (fst (precision_digits precision x)),
                      snd (precision_digits precision x)) in
      let m := fst me in
      let e := snd me in
      if (e <? -6) || (Z.of_nat precision <=? e) then
        let m' := if (precision =? 1)%nat then m
                  else (str_take 1 m ++ "." ++ str_drop 1 m)%string in
        let c := if 0 <=? e then "+" else "-" in
        (s ++ m' ++ "e" ++ c ++ decimal_digits (Z.abs e))%string
      else if e =? Z.of_nat precision - 1 then (s ++ m)%string
      else if 0 <=? e then
        (s ++ str_take (Z.to_nat (e + 1)) m ++ "." ++ str_drop (Z.to_nat (e + 1)) m)%string
      else (s ++ "0." ++ zeros (Z.to_nat (- (e + 1))) ++ m)%string
  end.

(** *** Reading decimal digits *)

Definition digit_value (c : ascii) : option Z :=
  let d := Z.of_nat (nat_of_ascii c) - 48 in
  if (0 <=? d) && (d <=? 9) then Some d else None.

(** The number that a string of decimal digits denotes. *)
Fixpoint digits_value (s : string) (acc : Z) : option Z :=
  match s with
  | EmptyString => Some acc
  | String c s' =>
      match digit_value c with
      | Some d => digits_value s' (10 * acc + d)
      | None => None
      end
  end.

End JsNumber.

Import JsNumber.

(** ** JavaScript values *)

(** Functions are opaque references, named after the binding that holds
    them in the source; they are only stored and passed on. *)
Inductive value :=
| VUndefined
| VNull
| VBool (b : bool)
| VNum (n : number)
| VStr (s : string)
| VFun (name : string)
| VArr (elems : list value)
| VObj (props : gmap string value).

Abbreviation VInt z := (VNum (of_Z z)).

(** An evaluation either yields a value, throws a [TypeError], throws
    another [Error], or leaves the fragment of JavaScript that is described
    here. *)
Inductive result (A : Type) :=
| Ok (a : A)
| TypeError
| Error
| Unmodelled.
Arguments Ok {A} a.
Arguments TypeError {A}.
Arguments Error {A}.
Arguments Unmodelled {A}.

Definition bind {A B} (r : result A) (k : A -> result B) : result B :=
  match r with
  | Ok a => k a
  | TypeError => TypeError
  | Error => Error
  | Unmodelled => Unmodelled
  end.

Notation "'let!' x ':=' r 'in' k" := (bind r (fun x => k))
  (at level 10, x name, r at level 100, k at level 200).

(** ToBoolean. *)
Definition truthy (v : value) : bool :=
  match v with
  | VUndefined | VNull => false
  | VBool b => b
  | VNum n => negb (is_falsy n)
  | VStr s => negb (String.eqb s "")
  | VFun _ | VArr _ | VObj _ => true
  end.

(** [v.k] for a property name [k] other than [length]: own properties of
    plain objects; reading from [undefined] or [null] throws. *)
Definition get (v : value) (k : string) : result value :=
  match v with
  | VUndefined | VNull => TypeError
  | VObj m => Ok (default VUndefined (m !! k))
  | _ => Ok VUndefined
  end.

(** [v.length].  The arity of a function is not recorded. *)
Definition get_length (v : value) : result value :=
  match v with
  | VUndefined | VNull => TypeError
  | VArr l => Ok (VInt (Z.of_nat (length l)))
  | VStr s => Ok (VInt (Z.of_nat (String.length s)))
  | VObj m => Ok (default VUndefined (m !! "length"%string))
  | VFun _ => Unmodelled
  | VBool _ | VNum _ => Ok VUndefined
  end.

(** [v[i]] for an array index [i]. *)
Definition at_index (v : value) (i : nat) : result value :=
  match v with
  | VUndefined | VNull => TypeError
  | VArr l => Ok (default VUndefined (l !! i))
  | VStr s =>
      Ok (match String.get i s with
          | Some c => VStr (String c "")
          | None => VUndefined
          end)
  | VObj m => Ok (default VUndefined (m !! decimal_digits (Z.of_nat i)))
  | _ => Ok VUndefined
  end.

(** ** The host: built-ins and imports that the file calls

    [finite_toString], [parseFloat] and [parseInt] are the ECMAScript
    built-ins; [moment_format n fmt] is
    [moment(n).format(fmt)] in the local time zone; [Date_getTime v] is
    [new Date(v).getTime()]; [Object_toString] is the string conversion of
    objects, arrays and functions.  [bytesToUnits] and [cssNames] come
    from [../../utils], [ChartKind_BAR] from [./chart] and [ZebraStripes]
    from [./zebra-stripes.plugin]. *)
Record Host := {
  finite_toString : Q -> string;
  parseFloat : string -> number;
  parseInt : string -> number;
  moment_format : number -> string -> string;
  Date_getTime : value -> number;
  Object_toString : value -> string;
  bytesToUnits : number -> option nat -> string;
  cssNames : string -> value -> value;
  ChartKind_BAR : value;
  ZebraStripes : value
}.

(** The operations of the [color] package that the file calls:
    [Color(v)], which throws on a value it cannot read as a colour,
    [c.alpha(a)] and [c.string()]. *)
Record ColorPackage := {
  color : Type;
  Color : value -> option color;
  alpha : color -> Q -> color;
  string_of_color : color -> string
}.

(** The theme colours read from [themeStore.activeTheme.colors]. *)
Record ThemeColors := {
  textColorPrimary : value;
  borderFaintColor : value;
  chartStripesColor : value
}.

Section BarChart.

Context (host : Host).

(** ToString, as applied by [String(v)] and by template literals. *)
Definition ToString (v : value) : string :=
  match v with
  | VUndefined => "undefined"
  | VNull => "null"
  | VBool true => "true"
  | VBool false => "false"
  | VNum n => toString (finite_toString host) n
  | VStr s => s
  | VFun _ | VArr _ | VObj _ => Object_toString host v
  end.

(** [v.toString()]. *)
Definition call_toString (v : value) : result string :=
  match v with
  | VUndefined | VNull => TypeError
  | _ => Ok (ToString v)
  end.

(** *** Fill colour of a bar (lines 34-37) *)

Definition getBarColor (lib : ColorPackage) (context : value) : result string :=
  let! dataset := get context "dataset" in
  let! borderColor := get dataset "borderColor" in
  match Color lib borderColor with
  | Some c => Ok (string_of_color lib (alpha lib c (2 # 10)))
  | None => Error
  end.

(** *** Dataset normaliser (lines 39-53) *)

(** The properties written before [...item] in the object literal. *)
Definition dataset_defaults : gmap string value :=
  {[ "type" := ChartKind_BAR host;
     "borderWidth" := VObj {[ "top" := VInt 3 ]};
     "barPercentage" := VInt 1;
     "categoryPercentage" := VInt 1 ]}%string.

(** [{ type: ..., borderWidth: ..., ..., ...item }]: the properties of
    [item] are written last and replace the defaults of the same name. *)
Definition with_defaults (item : value) : value :=
  match item with
  | VObj m => VObj (m ∪ dataset_defaults)
  | VArr l =>
      VObj (list_to_map (imap (fun i x => (decimal_digits (Z.of_nat i), x)) l)
            ∪ dataset_defaults)
  | VStr s =>
      VObj (list_to_map
              (imap (fun i c => (decimal_digits (Z.of_nat i), VStr (String c "")))
                    (list_ascii_of_string s))
            ∪ dataset_defaults)
  | _ => VObj dataset_defaults
  end.

(** [set => set.data.length] *)
Definition has_points (set : value) : result bool :=
  let! d := get set "data" in let! n := get_length d in Ok (truthy n).

Fixpoint filter_sets (sets : list value) : result (list value) :=
  match sets with
  | [] => Ok []
  | set :: sets' =>
      let! keep := has_points set in
      let! rest := filter_sets sets' in
      Ok (if keep then set :: rest else rest)
  end.

(** [data.datasets.filter(...).map(...)]; calling [filter] on anything
    but an array throws, unless an object brings a [filter] of its own. *)
Definition normalize_datasets (datasets : value) : result (list value) :=
  match datasets with
  | VArr sets => let! kept := filter_sets sets in Ok (with_defaults <$> kept)
  | VObj m =>
      match m !! "filter"%string with
      | Some (VFun _) => Unmodelled
      | _ => TypeError
      end
  | _ => TypeError
  end.

(** [chartData = { ...data, datasets: ... }] *)
Definition chartData (data : gmap string value) : result (gmap string value) :=
  let! sets := normalize_datasets (default VUndefined (data !! "datasets"%string)) in
  Ok (<["datasets"%string := VArr sets]> data).

(** *** Time-axis labels (lines 55-61) *)

(** Tick positions and the label step are integers. *)

(** [index % step] on integers: NaN when the divisor is zero, else the
    remainder with the sign of the dividend. *)
Definition js_rem (index step : Z) : number :=
  if step =? 0 then NaN else of_Z (Z.rem index step).

Definition offset : string := "     ".

Definition formatTimeLabels (timeLabelStep : Z) (timestamp : string) (index : Z)
  : string :=
  let label := moment_format host (parseInt host timestamp) "HH:mm" in
  if index =? 0 then (offset ++ label)%string
  else if index =? 60 then (label ++ offset)%string
  else if num_eq (js_rem index timeLabelStep) (of_Z 0) then label
  else ""%string.

(** *** Tooltip title (lines 114-118) *)

(** [now] is [new Date().getTime()]. *)
Definition tooltips_title (now : number) (tooltipItems : list value)
  : result string :=
  let! xLabel := get (default VUndefined (tooltipItems !! 0%nat)) "xLabel" in
  if num_gt (Date_getTime host xLabel) now then Ok ""%string
  else Ok (ToString xLabel).

(** *** Tooltip colour swatch (lines 119-124) *)

(** [chartData] is the normalised data of the component. *)
Definition tooltips_labelColor (chartData : gmap string value) (datasetIndex : nat)
  : result value :=
  let! datasets := get (VObj chartData) "datasets" in
  let! set := at_index datasets datasetIndex in
  let! borderColor := get set "borderColor" in
  Ok (VObj {[ "borderColor" := VStr "darkgray";
              "backgroundColor" := borderColor ]}%string).

(** *** The computed options (lines 63-140) *)

Context (theme : ThemeColors).

Definition barOptions : gmap string value :=
  {[ "maintainAspectRatio" := VBool false;
     "responsive" := VBool true;
     "scales" := VObj
       {[ "xAxes" := VArr [ VObj
            {[ "type" := VStr "time";
               "offset" := VBool true;
               "gridLines" := VObj {[ "display" := VBool false ]};
               "stacked" := VBool true;
               "ticks" := VObj
                 {[ "callback" := VFun "formatTimeLabels";
                    "autoSkip" := VBool false;
                    "source" := VStr "data";
                    "backdropColor" := VStr "white";
                    "fontColor" := textColorPrimary theme;
                    "fontSize" := VInt 11;
                    "maxRotation" := VInt 0;
                    "minRotation" := VInt 0 ]};
               "bounds" := VStr "data";
               "time" := VObj
                 {[ "unit" := VStr "minute";
                    "displayFormats" := VObj {[ "minute" := VStr "x" ]};
                    "parser" := VFun "barOptions.scales.xAxes.time.parser" ]} ]} ];
          "yAxes" := VArr [ VObj
            {[ "position" := VStr "right";
               "gridLines" := VObj
                 {[ "color" := borderFaintColor theme;
                    "drawBorder" := VBool false;
                    "tickMarkLength" := VInt 0;
                    "zeroLineWidth" := VInt 0 ]};
               "ticks" := VObj
                 {[ "maxTicksLimit" := VInt 6;
                    "fontColor" := textColorPrimary theme;
                    "fontSize" := VInt 11;
                    "padding" := VInt 8;
                    "min" := VInt 0 ]} ]} ] ]};
     "tooltips" := VObj
       {[ "mode" := VStr "index";
          "position" := VStr "cursor";
          "callbacks" := VObj
            {[ "title" := VFun "barOptions.tooltips.callbacks.title";
               "labelColor" := VFun "barOptions.tooltips.callbacks.labelColor" ]} ]};
     "animation" := VObj {[ "duration" := VInt 0 ]};
     "elements" := VObj
       {[ "rectangle" := VObj {[ "backgroundColor" := VFun "getBarColor" ]} ]};
     "plugins" := VObj
       {[ "ZebraStripes" := VObj {[ "stripeColor" := chartStripesColor theme ]} ]}
  ]}%string.

End BarChart.

(** ** lodash [merge] (line 141)

    [merge] is imported from lodash.  The definition follows its
    documented algorithm ([baseMerge], [baseMergeDeep],
    [assignMergeValue]) on trees built from primitives, functions, arrays
    and plain objects:
    - a source property that is a plain object is merged, key by key, into
      the destination's object of the same name (into a fresh object when
      the destination holds none);
    - a source property that is an array is merged, index by index, into
      the destination's array of the same name (into a fresh array when
      the destination holds none);
    - a source property that is [undefined] is skipped when the key exists
      in the destination;
    - any other source value is assigned.
    Where a plain object meets an array or a function, and where an array
    meets an object with a [length], lodash's result is an array or a
    function that carries extra properties, or depends on its version:
    these are not described ([None]). *)

Module Lodash.

Definition sequence (m : gmap string (option value)) : option (gmap string value) :=
  if bool_decide (map_Forall (fun _ o => is_Some o) m) then Some (omap id m)
  else None.

Fixpoint mergeValue (srcValue : value) (objValue : option value) {struct srcValue}
  : option value :=
  match srcValue with
  | VObj sp =>
      let into (dp : gmap string value) :=
        VObj <$> sequence
          (merge (fun os od =>
                    match os with
                    | Some s => Some (mergeValue s od)
                    | None => Some <$> od
                    end) sp dp) in
      match objValue with
      | Some (VObj dp) => into dp
      | Some (VArr _) | Some (VFun _) => None
      | _ => into ∅
      end
  | VArr sl =>
      let into :=
        fix go (dl sl : list value) {struct sl} : option (list value) :=
          match sl with
          | [] => Some dl
          | s :: sl' =>
              r ← mergeValue s (head dl);
              rs ← go (tail dl) sl';
              Some (r :: rs)
          end in
      match objValue with
      | Some (VArr dl) => VArr <$> into dl sl
      | Some (VObj dp) =>
          match dp !! "length"%string with
          | Some _ => None
          | None => VArr <$> into [] sl
          end
      | _ => VArr <$> into [] sl
      end
  | VUndefined =>
      match objValue with
      | Some o => Some o
      | None => Some VUndefined
      end
  | _ => Some srcValue
  end.

(** The two loops of [mergeValue], named for reasoning. *)
Fixpoint merge_list (dl sl : list value) : option (list value) :=
  match sl with
  | [] => Some dl
  | s :: sl' =>
      r ← mergeValue s (head dl);
      rs ← merge_list (tail dl) sl';
      Some (r :: rs)
  end.

Definition merge_props (dp sp : gmap string value) : option (gmap string value) :=
  sequence (base.merge (fun os od =>
                     match os with
                     | Some s => Some (mergeValue s od)
                     | None => Some <$> od
                     end) sp dp).

(** [merge(object, source)] with one source; a source that is
    [undefined] is skipped. *)
Definition merge (object : gmap string value) (source : option (gmap string value))
  : option (gmap string value) :=
  match source with
  | None => Some object
  | Some sp =>
      match mergeValue (VObj sp) (Some (VObj object)) with
      | Some (VObj r) => Some r
      | _ => None
      end
  end.

End Lodash.

(** ** The component (lines 24-155) *)

Record Props := {
  name : value;
  data : gmap string value;
  className : value;
  timeLabelStep : option Z;
  plugins : option value;
  options : option (gmap string value);
  settings : gmap string value
}.

(** What the component returns: the placeholder, or the chart element
    with the properties it is given.  The options of the element are the
    merged options, [None] where the merge is not described. *)
Inductive element :=
| NoMetrics
| Chart (className type : value) (data : gmap string value)
        (options : option (gmap string value))
        (plugins : value) (settings : gmap string value).

Section Component.

Context (host : Host) (theme : ThemeColors).

(** [defaultProps] (lines 17-20) stand in for the properties that are
    [undefined]. *)
Definition default_timeLabelStep : Z := 10.
Definition default_plugins : value := VArr [ZebraStripes host].

Definition resolved_timeLabelStep (props : Props) : Z :=
  default default_timeLabelStep (timeLabelStep props).

Definition resolved_plugins (props : Props) : value :=
  default default_plugins (plugins props).

(** The tick callback the component installs on the time axis. *)
Definition BarChart_formatTimeLabels (props : Props) : string -> Z -> string :=
  formatTimeLabels host (resolved_timeLabelStep props).

(** The component.  The reference [savedName] and its effect (lines
    28-32) only record [props.name] and are left out. *)
Definition BarChart (props : Props) : result element :=
  let! chartData := chartData host (data props) in
  let options := Lodash.merge (barOptions theme) (options props) in
  let! n := get_length (default VUndefined (chartData !! "datasets"%string)) in
  if negb (truthy n) then Ok NoMetrics
  else Ok (Chart (cssNames host "BarChart flex box grow column" (className props))
                 (ChartKind_BAR host) chartData options
                 (resolved_plugins props) (settings props)).

End Component.

(** ** The exported option bundles (lines 157-205) *)

Definition memoryOptions : gmap string value :=
  {[ "scales" := VObj
       {[ "yAxes" := VArr [ VObj
            {[ "ticks" := VObj
                 {[ "callback" := VFun "memoryOptions.scales.yAxes.ticks.callback";
                    "stepSize" := VInt 1 ]} ]} ] ]};
     "tooltips" := VObj
       {[ "callbacks" := VObj
            {[ "label" := VFun "memoryOptions.tooltips.callbacks.label" ]} ]}
  ]}%string.

Definition cpuOptions : gmap string value :=
  {[ "scales" := VObj
       {[ "yAxes" := VArr [ VObj
            {[ "ticks" := VObj
                 {[ "callback" := VFun "cpuOptions.scales.yAxes.ticks.callback" ]} ]} ] ]};
     "tooltips" := VObj
       {[ "callbacks" := VObj
            {[ "label" := VFun "cpuOptions.tooltips.callbacks.label" ]} ]}
  ]}%string.

Section Callbacks.

Context (host : Host).

(** [memoryOptions.scales.yAxes[0].ticks.callback] (lines 162-166) *)
Definition memory_ticks_callback (input : value) : value :=
  let v := parseFloat host (ToString host input) in
  if is_falsy v then VInt 0
  else if num_lt v (of_Z 1) then VStr (toFixed (finite_toString host) v 3)
  else VStr (bytesToUnits host v None).

(** The point that a tooltip item designates: [datasets[datasetIndex]]
    destructured into [label] and [data], and [data[index]]. *)
Definition tooltip_point (datasetIndex index : nat) (datasets : value)
  : result (value * value) :=
  let! set := at_index datasets datasetIndex in
  let! label := get set "label" in
  let! data := get set "data" in
  let! point := at_index data index in
  Ok (label, point).

(** [memoryOptions.tooltips.callbacks.label] (lines 173-177) *)
Definition memory_tooltips_label (datasetIndex index : nat) (datasets : value)
  : result string :=
  let! p := tooltip_point datasetIndex index datasets in
  let! y := get (snd p) "y" in
  let! s := call_toString host y in
  Ok (ToString host (fst p) ++ ": "
      ++ bytesToUnits host (parseInt host s) (Some 3%nat))%string.

(** [cpuOptions.scales.yAxes[0].ticks.callback] (lines 187-192) *)
Definition cpu_ticks_callback (v : number) : value :=
  if num_eq v (of_Z 0) then VInt 0
  else if num_lt v (of_Z 10) then VStr (toFixed (finite_toString host) v 3)
  else if num_lt v (of_Z 100) then VStr (toFixed (finite_toString host) v 2)
  else VStr (toFixed (finite_toString host) v 1).

(** [cpuOptions.tooltips.callbacks.label] (lines 198-202) *)
Definition cpu_tooltips_label (datasetIndex index : nat) (datasets : value)
  : result string :=
  let! p := tooltip_point datasetIndex index datasets in
  let! y := get (snd p) "y" in
  Ok (ToString host (fst p) ++ ": "
      ++ toPrecision (parseFloat host (ToString host y)) 2)%string.

End Callbacks.

(** ** The byte-unit scaler

    [bytesToUnits] of [../../utils] is not among the sources.  The
    callbacks take it from the host; what the specification says of it is
    written out here. *)

(** Modelled from the spec: the unit suffixes of the byte-unit scaler,
    which is missing from the sources ("bytes -> KB/MB/GB with appropriate
    suffix", section 4.3). *)
Definition byte_units : list string := ["B"; "KB"; "MB"; "GB"]%string.

(** Modelled from the spec: the unit that the missing byte-unit scaler
    picks for a magnitude [x], the largest one that [x] reaches, in
    steps of 1024 (2048 is shown in KB, section 8). *)
Definition unit_index (x : Q) : nat :=
  if Qle_bool (inject_Z (1024 ^ 3)) x then 3
  else if Qle_bool (inject_Z (1024 ^ 2)) x then 2
  else if Qle_bool (inject_Z (1024 ^ 1)) x then 1
  else 0.

(** Modelled from the spec: the missing byte-unit scaler called with a
    precision, "value formatted with a byte-unit scaler, 3 significant
    digits" (section 4.3): the value scaled to its unit, shown with
    [precision] significant digits, a space and the unit.  What the scaler
    shows without a precision is its own convention and is not modelled. *)
Definition spec_bytesToUnits (v : number) (precision : nat) : string :=
  match v with
  | Fin q =>
      let i := unit_index (Qabs q) in
      (toPrecision (Fin (q / inject_Z (1024 ^ Z.of_nat i))) precision
       ++ " " ++ nth i byte_units "")%string
  | _ => (toPrecision v precision ++ " B")%string
  end.

(** ** A host and a theme for examples

    On the inputs used in the examples below, [sample_host] returns what
    the built-ins return: it prints integers and halves, reads unsigned
    decimal integers and ["0.5"], reads the integer prefix of a string,
    formats times in UTC and takes a number as its own time value. *)

Definition two_digits (n : Z) : string :=
  if n <? 10 then ("0" ++ decimal_digits n)%string else decimal_digits n.

Fixpoint digit_prefix (s : string) : string :=
  match s with
  | EmptyString => ""
  | String c s' =>
      match digit_value c with
      | Some _ => String c (digit_prefix s')
      | None => ""
      end
  end.

Definition sample_finite_toString (q : Q) : string :=
  let s := if Qle_bool 0 q then "" else "-" in
  let q' := Qred (Qabs q) in
  match Qden q' with
  | 1%positive => (s ++ decimal_digits (Qnum q'))%string
  | 2%positive => (s ++ decimal_digits (Qnum q' / 2) ++ ".5")%string
  | _ => ""%string
  end.

Definition sample_parseFloat (s : string) : number :=
  if String.eqb s "0.5" then Fin (1 # 2)
  else if String.eqb s "" then NaN
  else match digits_value s 0 with
       | Some z => of_Z z
       | None => NaN
       end.

Definition sample_parseInt (s : string) : number :=
  let p := digit_prefix s in
  if String.eqb p "" then NaN
  else match digits_value p 0 with
       | Some z => of_Z z
       | None => NaN
       end.

Definition sample_moment_format (n : number) (fmt : string) : string :=
  match n with
  | Fin q =>
      let ms := Qnum q / Z.pos (Qden q) in
      let hours := (ms / 3600000) mod 24 in
      let minutes := (ms / 60000) mod 60 in
      (two_digits hours ++ ":" ++ two_digits minutes)%string
  | _ => "Invalid date"%string
  end.

Definition sample_host : Host := {|
  finite_toString := sample_finite_toString;
  parseFloat := sample_parseFloat;
  parseInt := sample_parseInt;
  moment_format := sample_moment_format;
  Date_getTime := fun v => match v with VNum n => n | _ => NaN end;
  Object_toString := fun _ => "[object Object]"%string;
  bytesToUnits := fun n precision =>
    (toFixed sample_finite_toString n (default 1%nat precision) ++ "B")%string;
  cssNames := fun base extra =>
    match extra with
    | VStr c => VStr (base ++ " " ++ c)
    | _ => VStr base
    end;
  ChartKind_BAR := VStr "bar";
  ZebraStripes := VFun "ZebraStripes"
|}.

Definition dark_theme : ThemeColors := {|
  textColorPrimary := VStr "#87909c";
  borderFaintColor := VStr "#373a3e";
  chartStripesColor := VStr "#ffffff08"
|}.

(** Two datasets, the second without points, and the properties of a
    chart that shows them with the memory options. *)
Definition sample_usage : gmap string value :=
  {[ "label" := VStr "Usage";
     "borderColor" := VStr "#3d90ce";
     "barPercentage" := VNum (Fin (1 # 2));
     "data" := VArr [ VObj {[ "x" := VInt 1600000000; "y" := VStr "1536" ]};
                      VObj {[ "x" := VInt 1600000060; "y" := VInt 2048 ]} ] ]}%string.

Definition sample_requests : gmap string value :=
  {[ "label" := VStr "Requests";
     "borderColor" := VStr "#30b24d";
     "data" := VArr [] ]}%string.

Definition sample_data : gmap string value :=
  {[ "datasets" := VArr [VObj sample_usage; VObj sample_requests] ]}%string.

Definition sample_props : Props := {|
  name := VStr "memory";
  data := sample_data;
  className := VUndefined;
  timeLabelStep := None;
  plugins := None;
  options := Some memoryOptions;
  settings := ∅
|}.

(** The sample host with the specification's scaler wherever a precision
    is given. *)
Definition spec_host : Host := {|
  finite_toString := finite_toString sample_host;
  parseFloat := parseFloat sample_host;
  parseInt := parseInt sample_host;
  moment_format := moment_format sample_host;
  Date_getTime := Date_getTime sample_host;
  Object_toString := Object_toString sample_host;
  bytesToUnits := fun v precision =>
    match precision with
    | Some p => spec_bytesToUnits v p
    | None => bytesToUnits sample_host v None
    end;
  cssNames := cssNames sample_host;
  ChartKind_BAR := ChartKind_BAR sample_host;
  ZebraStripes := ZebraStripes sample_host
|}.

(** A dataset with one point, of one byte and a half. *)
Definition sample_fraction : gmap string value :=
  {[ "label" := VStr "m";
     "data" := VArr [ VObj {[ "y" := VNum (Fin (3 # 2)) ]} ] ]}%string.

(** ** Specification vocabulary *)

(** [s] shows [q] with exactly [k] decimals: an optional minus sign, at
    least one digit, a point and [k] digits; read without the point the
    digits denote an integer [n] within one half of [|q| * 10^k], so that
    [n / 10^k] is [|q|] rounded to [k] decimals. *)
Definition fixed_decimal (k : nat) (q : Q) (s : string) : Prop :=
  exists (int frac : string) (n : Z),
    s = ((if Qle_bool 0 q then "" else "-") ++ int ++ "." ++ frac)%string
    /\ String.length frac = k
    /\ int <> ""%string
    /\ digits_value (int ++ frac) 0 = Some n
    /\ (Qabs (inject_Z n - Qabs q * inject_Z (10 ^ Z.of_nat k)) <= 1 # 2)%Q.

(** [body] writes the digits [m], the first of which counts [10^e]: as
    they are when the last digit counts units; with a point after the
    digit that counts units; after ["0."] and zeros when the first digit
    counts less than a unit; or with a point after the first digit,
    followed by the exponent [e]. *)
Inductive numeral (m : string) (e : Z) : string -> Prop :=
| numeral_whole :
    e = Z.of_nat (String.length m) - 1 ->
    numeral m e m
| numeral_point :
    0 <= e < Z.of_nat (String.length m) - 1 ->
    numeral m e (str_take (Z.to_nat (e + 1)) m ++ "." ++ str_drop (Z.to_nat (e + 1)) m)%string
| numeral_small :
    e < 0 ->
    numeral m e ("0." ++ zeros (Z.to_nat (- (e + 1))) ++ m)%string
| numeral_exponent :
    numeral m e
      ((if (String.length m =? 1)%nat then m
        else str_take 1 m ++ "." ++ str_drop 1 m)
       ++ "e" ++ (if (0 <=? e)%Z then "+" else "-") ++ decimal_digits (Z.abs e))%string.

(** [s] shows [q] with [p] significant digits: an optional minus sign and
    a numeral of exactly [p] digits, the first of which is not zero unless
    [q] is zero; the digits denote an integer [n], and [n * 10^(e-p+1)] is
    within half a unit of the last digit of [|q|]. *)
Definition significant (p : nat) (q : Q) (s : string) : Prop :=
  exists (m body : string) (n e : Z),
    s = ((if Qle_bool 0 q then "" else "-") ++ body)%string
    /\ numeral m e body
    /\ String.length m = p
    /\ digits_value m 0 = Some n
    /\ (10 ^ (Z.of_nat p - 1) <= n \/ n = 0 /\ (q == 0)%Q)
    /\ (Qabs (inject_Z n * 10 ^ (e - Z.of_nat p + 1) - Qabs q)
        <= (1 # 2) * 10 ^ (e - Z.of_nat p + 1))%Q.

(** [s] shows the byte count [q] through the byte-unit scaler with [p]
    significant digits: [q] scaled to the largest unit it reaches, shown
    with [p] significant digits, a space and the unit. *)
Definition byte_scaled (p : nat) (q : Q) (s : string) : Prop :=
  exists (i : nat) (unit num : string),
    byte_units !! i = Some unit
    /\ s = (num ++ " " ++ unit)%string
    /\ significant p (q / inject_Z (1024 ^ Z.of_nat i)) num
    /\ (i = 0%nat \/ (inject_Z (1024 ^ Z.of_nat i) <= Qabs q)%Q)
    /\ (i = 3%nat \/ (Qabs q < inject_Z (1024 ^ Z.of_nat (S i)))%Q).

(** The point sequence of a dataset object. *)
Definition points (set : gmap string value) : option (list value) :=
  match set !! "data"%string with
  | Some (VArr pts) => Some pts
  | _ => None
  end.

Definition nonempty (set : gmap string value) : bool :=
  match points set with
  | Some (_ :: _) => true
  | _ => false
  end.

(** Being a multiple is decidable. *)
#[local] Instance Z_divide_dec : RelDecision Z.divide.
Proof.
  intros a b. destruct (Z.eq_dec a 0) as [->|Ha].
  - destruct (Z.eq_dec b 0) as [->|Hb].
    + left. apply Z.divide_0_r.
    + right. intros H%Z.divide_0_l. contradiction.
  - destruct (Z.eq_dec (Z.rem b a) 0) as [H|H].
    + left. apply Z.rem_divide; assumption.
    + right. intros Hd. apply H, Z.rem_divide; assumption.
Defined.

(** The size of a tree, for induction over nested values. *)
Fixpoint size (v : value) : nat :=
  match v with
  | VArr l => S (foldr (fun x acc => size x + acc)%nat O l)
  | VObj m => S (map_fold (fun _ x acc => size x + acc)%nat O m)
  | _ => 1%nat
  end.

(** Positions in an option tree: a property name leads into an object,
    an index into an array. *)
Inductive key :=
| Key (name : string)
| Idx (i : nat).

(** What a path leads to: a value; nothing, because a key on the way is
    absent; or nothing, because the path runs into a value that is not a
    container of the right kind. *)
Inductive found :=
| Found (v : value)
| Missing
| Blocked.

Definition child (k : key) (v : value) : found :=
  match k, v with
  | Key n, VObj m => from_option Found Missing (m !! n)
  | Idx i, VArr l => from_option Found Missing (l !! i)
  | _, _ => Blocked
  end.

Fixpoint walk (p : list key) (v : value) : found :=
  match p with
  | [] => Found v
  | k :: p' =>
      match child k v with
      | Found c => walk p' c
      | other => other
      end
  end.

(** The length of the array that a path leads to. *)
Definition array_length (f : found) : option nat :=
  match f with
  | Found (VArr l) => Some (length l)
  | _ => None
  end.

(** A value that is neither [undefined] nor a container. *)
Definition is_leaf (v : value) : bool :=
  match v with
  | VNull | VBool _ | VNum _ | VStr _ | VFun _ => true
  | VUndefined | VArr _ | VObj _ => false
  end.

(** The destination value that the merge of a child starts from. *)
Definition base_child (k : key) (od : option value) : option value :=
  match k, od with
  | Key n, Some (VObj dp) => dp !! n
  | Idx i, Some (VArr dl) => dl !! i
  | _, _ => None
  end.

(** The filter of the normaliser keeps [set]: [set.data.length] can be
    read and is truthy. *)
Definition keeps (set : value) : bool :=
  match has_points set with
  | Ok true => true
  | _ => false
  end.

(** [set.data.length] can be read. *)
Definition readable (set : value) : bool :=
  match has_points set with
  | Ok _ => true
  | _ => false
  end.

(** A call returned, and what it returned ([d] for a call that threw). *)
Definition returns {A} (r : result A) : bool :=
  match r with
  | Ok _ => true
  | _ => false
  end.

Definition returned {A} (d : A) (r : result A) : A :=
  match r with
  | Ok a => a
  | _ => d
  end.

(** Properties with datasets that are all empty, and properties whose
    second dataset has no [data]. *)
Definition idle_props : Props := {|
  name := VStr "requests";
  data := {[ "datasets"%string := VArr [VObj sample_requests] ]};
  className := VUndefined;
  timeLabelStep := None;
  plugins := None;
  options := None;
  settings := ∅
|}.

Definition broken_props : Props := {|
  name := VStr "broken";
  data := {[ "datasets"%string
             := VArr ([VObj sample_usage]
                      ++ VObj {[ "label"%string := VStr "Limits" ]} :: []) ]};
  className := VUndefined;
  timeLabelStep := None;
  plugins := None;
  options := None;
  settings := ∅
|}.

(** A dataset whose points are bare numbers. *)
Definition sample_bare : gmap string value :=
  {[ "label" := VStr "cpu"; "data" := VArr [VInt 5] ]}%string.

(** The options that the component computes itself are in place in
    [o]: its three callbacks and the bar colour, one time axis, and one
    value axis with its position, lower bound and theme colour. *)
Definition own_options_kept (theme : ThemeColors) (o : gmap string value) : Prop :=
  walk [Key "scales"; Key "xAxes"; Idx 0; Key "ticks"; Key "callback"]%string (VObj o)
  = Found (VFun "formatTimeLabels")
  /\ walk [Key "tooltips"; Key "callbacks"; Key "title"]%string (VObj o)
     = Found (VFun "barOptions.tooltips.callbacks.title")
  /\ walk [Key "tooltips"; Key "callbacks"; Key "labelColor"]%string (VObj o)
     = Found (VFun "barOptions.tooltips.callbacks.labelColor")
  /\ walk [Key "elements"; Key "rectangle"; Key "backgroundColor"]%string (VObj o)
     = Found (VFun "getBarColor")
  /\ array_length (walk [Key "scales"; Key "xAxes"]%string (VObj o)) = Some 1%nat
  /\ array_length (walk [Key "scales"; Key "yAxes"]%string (VObj o)) = Some 1%nat
  /\ walk [Key "scales"; Key "yAxes"; Idx 0; Key "position"]%string (VObj o)
     = Found (VStr "right")
  /\ walk [Key "scales"; Key "yAxes"; Idx 0; Key "ticks"; Key "min"]%string (VObj o)
     = Found (VInt 0)
  /\ walk [Key "scales"; Key "yAxes"; Idx 0; Key "ticks"; Key "fontColor"]%string (VObj o)
     = Found (textColorPrimary theme).

(** * Properties *)

(** ** Number formatting on examples *)

Example toFixed_half f : toFixed f (Fin (1 # 2)) 3 = "0.500"%string.
Proof. reflexivity. Qed.

Example toFixed_negative_small f : toFixed f (Fin (- 1 # 20000)) 3 = "-0.000"%string.
Proof. reflexivity. Qed.

Example toFixed_tie f : toFixed f (Fin (25 # 10)) 0 = "3"%string.
Proof. reflexivity. Qed.

Example toFixed_carry f : toFixed f (Fin (99996 # 1000)) 2 = "100.00"%string.
Proof. reflexivity. Qed.

Example toPrecision_exponent : toPrecision (Fin (123456 # 1000)) 2 = "1.2e+2"%string.
Proof. reflexivity. Qed.

Example toPrecision_carry : toPrecision (Fin (996 # 10)) 2 = "1.0e+2"%string.
Proof. reflexivity. Qed.

Example toPrecision_small : toPrecision (Fin (123 # 1000000)) 2 = "0.00012"%string.
Proof. reflexivity. Qed.

Example toPrecision_tiny : toPrecision (Fin (1 # 10000000)) 2 = "1.0e-7"%string.
Proof. reflexivity. Qed.

Example toPrecision_half : toPrecision (Fin (- 1 # 2)) 2 = "-0.50"%string.
Proof. reflexivity. Qed.

Example toPrecision_5 : toPrecision (Fin 5) 2 = "5.0"%string.
Proof. reflexivity. Qed.

Example toPrecision_55 : toPrecision (Fin 55) 2 = "55"%string.
Proof. reflexivity. Qed.

Example toPrecision_zero : toPrecision (Fin 0) 2 = "0.0"%string.
Proof. reflexivity. Qed.

(** ** Decimal digits and fixed notation *)

Module FormatFacts.

#[local] Open Scope string_scope.

Lemma app_cons c (s t : string) : String c s ++ t = String c (s ++ t).
Proof. reflexivity. Qed.

Lemma app_assoc (s t u : string) : (s ++ t) ++ u = s ++ t ++ u.
Proof.
  induction s as [|c s IH]; [reflexivity|]. rewrite !app_cons, IH. reflexivity.
Qed.

Lemma app_nil_r (s : string) : s ++ "" = s.
Proof.
  induction s as [|c s IH]; [reflexivity|]. rewrite app_cons, IH. reflexivity.
Qed.

Lemma length_app (s t : string) :
  String.length (s ++ t) = (String.length s + String.length t)%nat.
Proof.
  induction s as [|c s IH]; [reflexivity|]. rewrite app_cons. cbn [String.length].
  rewrite IH. reflexivity.
Qed.

Lemma length_zeros k : String.length (zeros k) = k.
Proof. induction k as [|k IH]; cbn [zeros String.length]; congruence. Qed.

Lemma take_drop k s : str_take k s ++ str_drop k s = s.
Proof.
  revert s. induction k as [|k IH]; intros [|c s]; try reflexivity.
  cbn [str_take str_drop]. rewrite app_cons, IH. reflexivity.
Qed.

Lemma length_drop k s : String.length (str_drop k s) = (String.length s - k)%nat.
Proof.
  revert s. induction k as [|k IH]; intros [|c s]; try reflexivity.
  cbn [str_drop String.length]. rewrite IH. reflexivity.
Qed.

Lemma length_take k s : (k <= String.length s)%nat -> String.length (str_take k s) = k.
Proof.
  revert s. induction k as [|k IH]; intros [|c s] H; cbn [str_take String.length] in *;
    try reflexivity; try lia.
  rewrite IH by lia. reflexivity.
Qed.

Lemma digit_value_digit_char d : 0 <= d <= 9 -> digit_value (digit_char d) = Some d.
Proof.
  intros H. unfold digit_value, digit_char.
  rewrite nat_ascii_embedding by lia.
  replace (Z.of_nat (48 + Z.to_nat d) - 48) with d by lia.
  destruct (Z.leb_spec 0 d), (Z.leb_spec d 9); try lia. reflexivity.
Qed.

Lemma digits_value_zeros k s : digits_value (zeros k ++ s) 0 = digits_value s 0.
Proof.
  induction k as [|k IH]; [reflexivity|].
  cbn [zeros]. rewrite app_cons. cbn [digits_value]. exact IH.
Qed.

Lemma digits_from_spec fuel : forall n acc,
  (0 < fuel)%nat -> 0 <= n < 2 ^ Z.of_nat fuel ->
  exists s, digits_from fuel n acc = s ++ acc
            /\ s <> ""
            /\ forall a t, digits_value (s ++ t) a
                           = digits_value t (a * 10 ^ Z.of_nat (String.length s) + n).
Proof.
  induction fuel as [|fuel IH]; intros n acc Hfuel Hn; [lia|].
  cbn [digits_from].
  assert (Hd : 0 <= n mod 10 <= 9) by (pose proof (Z.mod_pos_bound n 10); lia).
  pose proof (Z.div_mod n 10 ltac:(lia)) as Hdiv.
  destruct (Z.eqb_spec (n / 10) 0) as [Hz|Hz].
  - exists (String (digit_char (n mod 10)) ""). split; [reflexivity|]. split; [discriminate|].
    intros a t. rewrite app_cons. cbn [digits_value String.length].
    rewrite digit_value_digit_char by assumption. cbn [append]. f_equal. lia.
  - assert (Hq : 1 <= n / 10) by (pose proof (Z.div_pos n 10); lia).
    assert (Hlt : n / 10 < 2 ^ Z.of_nat fuel).
    { apply Z.div_lt_upper_bound; [lia|].
      rewrite Nat2Z.inj_succ, Z.pow_succ_r in Hn by lia. lia. }
    assert (Hf : (0 < fuel)%nat).
    { destruct fuel; [cbn in Hlt; lia|lia]. }
    destruct (IH (n / 10) (String (digit_char (n mod 10)) acc) Hf ltac:(lia))
      as (s & Hs & Hne & Hval).
    exists (s ++ String (digit_char (n mod 10)) ""). split; [|split].
    + rewrite Hs, app_assoc. reflexivity.
    + destruct s; [contradiction|discriminate].
    + intros a t. rewrite app_assoc, Hval, app_cons. cbn [digits_value].
      rewrite digit_value_digit_char by assumption. cbn [append]. f_equal.
      rewrite length_app. cbn [String.length].
      rewrite Nat2Z.inj_add, Z.pow_add_r by lia. cbn [Z.of_nat Pos.of_succ_nat Z.pow Z.pow_pos Pos.iter].
      lia.
Qed.

Lemma decimal_digits_spec n :
  0 <= n ->
  decimal_digits n <> "" /\ digits_value (decimal_digits n) 0 = Some n.
Proof.
  intros Hn. unfold decimal_digits.
  destruct (digits_from_spec (S (Z.to_nat (Z.log2 n))) n "") as (s & Hs & Hne & Hval).
  - lia.
  - split; [assumption|]. rewrite Nat2Z.inj_succ, Z2Nat.id by apply Z.log2_nonneg.
    destruct (Z.eq_dec n 0) as [->|Hpos]; [cbn; lia|].
    apply Z.log2_spec. lia.
  - rewrite Hs, app_nil_r. split; [assumption|].
    specialize (Hval 0 ""). rewrite app_nil_r in Hval. rewrite Hval. reflexivity.
Qed.

Lemma fixed_notation_spec f n :
  0 <= n -> (0 < f)%nat ->
  exists int frac,
    fixed_notation f n = int ++ "." ++ frac
    /\ String.length frac = f
    /\ int <> ""
    /\ digits_value (int ++ frac) 0 = Some n.
Proof.
  intros Hn Hf. destruct (decimal_digits_spec n Hn) as [Hne Hval].
  unfold fixed_notation. destruct f as [|f]; [lia|].
  set (m := decimal_digits n) in *.
  set (m' := if (String.length m <=? S f)%nat then zeros (S (S f) - String.length m) ++ m else m).
  assert (Hlen : (S (S f) <= String.length m')%nat).
  { subst m'. destruct (Nat.leb_spec (String.length m) (S f)).
    - rewrite length_app, length_zeros. lia.
    - lia. }
  assert (Hm' : digits_value m' 0 = Some n).
  { subst m'. destruct (String.length m <=? S f)%nat; [|assumption].
    rewrite digits_value_zeros. assumption. }
  exists (str_take (String.length m' - S f) m'), (str_drop (String.length m' - S f) m').
  split; [reflexivity|]. split; [|split].
  - rewrite length_drop. lia.
  - intros E. apply (f_equal String.length) in E.
    rewrite length_take in E by lia. cbn in E. lia.
  - rewrite take_drop. assumption.
Qed.

Lemma round_scaled_bound f x :
  0 <= Qnum x ->
  0 <= round_scaled f x
  /\ (Qabs (inject_Z (round_scaled f x) - x * inject_Z (10 ^ Z.of_nat f)) <= 1 # 2)%Q.
Proof.
  intros Hx. unfold round_scaled.
  set (p := 10 ^ Z.of_nat f). assert (Hp : 0 < p) by (apply Z.pow_pos_nonneg; lia).
  destruct x as [a b]. cbn [Qnum Qden] in *.
  set (n := (2 * (a * p) + Z.pos b) / (2 * Z.pos b)).
  pose proof (Z.div_mod (2 * (a * p) + Z.pos b) (2 * Z.pos b) ltac:(lia)) as Hdiv.
  pose proof (Z.mod_pos_bound (2 * (a * p) + Z.pos b) (2 * Z.pos b) ltac:(lia)) as Hmod.
  fold n in Hdiv. split.
  - apply Z.div_pos; nia.
  - apply Qabs_Qle_condition.
    unfold Qle, Qminus, Qplus, Qopp, Qmult, inject_Z. cbn [Qnum Qden].
    rewrite ?Pos.mul_1_r, ?Pos.mul_1_l, ?Z.mul_1_r. split; nia.
Qed.

Lemma toFixed_fixed_decimal finite k q :
  (0 < k)%nat -> (Qabs q < ten_pow_21)%Q ->
  fixed_decimal k q (toFixed finite (Fin q) k).
Proof.
  intros Hk Hq. unfold toFixed.
  replace (Qle_bool ten_pow_21 (Qabs q)) with false.
  2:{ symmetry. apply not_true_is_false. intros H%Qle_bool_iff.
      exact (Qlt_not_le _ _ Hq H). }
  assert (Hnum : 0 <= Qnum (Qabs q)) by (destruct q; cbn; lia).
  destruct (round_scaled_bound k (Qabs q) Hnum) as [Hn Hround].
  destruct (fixed_notation_spec k _ Hn Hk) as (int & frac & -> & Hfrac & Hint & Hval).
  exists int, frac, (round_scaled k (Qabs q)). repeat split; assumption.
Qed.

End FormatFacts.

(** ** Counting digits *)

Module WidthFacts.

Import FormatFacts.
#[local] Open Scope string_scope.

Lemma digits_from_length fuel : forall n acc,
  (0 < fuel)%nat -> 0 <= n < 2 ^ Z.of_nat fuel ->
  exists k, (0 < k)%nat
            /\ String.length (digits_from fuel n acc) = (k + String.length acc)%nat
            /\ n < 10 ^ Z.of_nat k
            /\ (n = 0 /\ k = 1%nat \/ 10 ^ Z.of_nat k <= 10 * n).
Proof.
  induction fuel as [|fuel IH]; intros n acc Hfuel Hn; [lia|].
  cbn [digits_from].
  pose proof (Z.div_mod n 10 ltac:(lia)) as Hdiv.
  pose proof (Z.mod_pos_bound n 10 ltac:(lia)) as Hmod.
  destruct (Z.eqb_spec (n / 10) 0) as [Hz|Hz].
  - exists 1%nat. split; [lia|]. split; [reflexivity|]. cbn. lia.
  - assert (Hq : 1 <= n / 10) by (pose proof (Z.div_pos n 10); lia).
    assert (Hlt : n / 10 < 2 ^ Z.of_nat fuel).
    { apply Z.div_lt_upper_bound; [lia|].
      rewrite Nat2Z.inj_succ, Z.pow_succ_r in Hn by lia. lia. }
    assert (Hf : (0 < fuel)%nat).
    { destruct fuel; [cbn in Hlt; lia|lia]. }
    destruct (IH (n / 10) (String (digit_char (n mod 10)) acc) Hf ltac:(lia))
      as (k & Hk & Hlen & Hup & Hlo).
    exists (S k). split; [lia|]. split; [rewrite Hlen; cbn [String.length]; lia|].
    rewrite Nat2Z.inj_succ, Z.pow_succ_r by lia. lia.
Qed.

Lemma decimal_digits_length n :
  0 <= n ->
  exists k, (0 < k)%nat
            /\ String.length (decimal_digits n) = k
            /\ n < 10 ^ Z.of_nat k
            /\ (n = 0 /\ k = 1%nat \/ 10 ^ Z.of_nat k <= 10 * n).
Proof.
  intros Hn. unfold decimal_digits.
  destruct (digits_from_length (S (Z.to_nat (Z.log2 n))) n "") as (k & Hk & Hlen & Hb).
  - lia.
  - split; [assumption|]. rewrite Nat2Z.inj_succ, Z2Nat.id by apply Z.log2_nonneg.
    destruct (Z.eq_dec n 0) as [->|Hpos]; [cbn; lia|].
    apply Z.log2_spec. lia.
  - exists k. cbn [String.length] in Hlen. rewrite Nat.add_0_r in Hlen. auto.
Qed.

(** A number below [10^j] has at most [j] digits, a number from [10^j]
    on at least [j + 1]. *)
Lemma decimal_digits_at_most n j :
  (0 < j)%nat -> 0 <= n < 10 ^ Z.of_nat j ->
  (String.length (decimal_digits n) <= j)%nat.
Proof.
  intros Hj Hn. destruct (decimal_digits_length n) as (k & Hk & -> & Hup & Hlo); [lia|].
  destruct Hlo as [[_ ->]|Hlo]; [lia|].
  destruct (Nat.le_gt_cases k j) as [|Hgt]; [assumption|exfalso].
  assert (10 ^ Z.of_nat (S j) <= 10 ^ Z.of_nat k) by (apply Z.pow_le_mono_r; lia).
  rewrite Nat2Z.inj_succ, Z.pow_succ_r in H by lia. lia.
Qed.

Lemma decimal_digits_at_least n j :
  10 ^ Z.of_nat j <= n -> (j < String.length (decimal_digits n))%nat.
Proof.
  intros Hn. assert (0 < 10 ^ Z.of_nat j) by (apply Z.pow_pos_nonneg; lia).
  destruct (decimal_digits_length n) as (k & Hk & -> & Hup & _); [lia|].
  destruct (Nat.le_gt_cases k j) as [Hle|]; [exfalso|assumption].
  assert (10 ^ Z.of_nat k <= 10 ^ Z.of_nat j) by (apply Z.pow_le_mono_r; lia). lia.
Qed.

Lemma fixed_notation_length f n :
  (0 < f)%nat ->
  String.length (fixed_notation f n)
  = S (Nat.max (String.length (decimal_digits n)) (S f)).
Proof.
  intros Hf. unfold fixed_notation. destruct f as [|f]; [lia|].
  set (m := decimal_digits n).
  set (m' := if (String.length m <=? S f)%nat then zeros (S (S f) - String.length m) ++ m else m).
  assert (Hlen : String.length m' = Nat.max (String.length m) (S (S f))).
  { subst m'. destruct (Nat.leb_spec (String.length m) (S f)).
    - rewrite length_app, length_zeros. lia.
    - lia. }
  rewrite !length_app, length_take, length_drop by lia.
  cbn [String.length]. lia.
Qed.

Lemma round_scaled_range f x lo hi :
  0 <= lo ->
  (inject_Z lo <= x)%Q -> (x < inject_Z hi)%Q ->
  lo * 10 ^ Z.of_nat f <= round_scaled f x <= hi * 10 ^ Z.of_nat f.
Proof.
  intros Hlo0 Hlo Hhi. unfold round_scaled.
  set (p := 10 ^ Z.of_nat f). assert (Hp : 0 < p) by (apply Z.pow_pos_nonneg; lia).
  destruct x as [a b]. unfold Qle, Qlt, inject_Z in Hlo, Hhi. cbn [Qnum Qden] in *.
  rewrite ?Z.mul_1_r in Hlo, Hhi. split.
  - apply Z.div_le_lower_bound; nia.
  - apply Z.lt_succ_r. apply Z.div_lt_upper_bound; nia.
Qed.

(** The text of [toFixed] for a positive number in [lo, hi). *)
Lemma toFixed_positive_length finite f q lo hi :
  (0 < f)%nat -> 0 <= lo ->
  (0 < q)%Q -> (inject_Z lo <= q)%Q -> (q < inject_Z hi)%Q ->
  hi <= 10 ^ 21 ->
  exists n, lo * 10 ^ Z.of_nat f <= n <= hi * 10 ^ Z.of_nat f
            /\ String.length (toFixed finite (Fin q) f)
               = S (Nat.max (String.length (decimal_digits n)) (S f)).
Proof.
  intros Hf Hlo0 Hpos Hlo Hhi Hbig. unfold toFixed.
  assert (Habs : Qabs q = q).
  { destruct q as [a b]. unfold Qlt in Hpos. cbn in Hpos. unfold Qabs.
    rewrite Z.abs_eq by lia. reflexivity. }
  rewrite Habs.
  replace (Qle_bool 0 q) with true
    by (symmetry; apply Qle_bool_iff, Qlt_le_weak; assumption).
  replace (Qle_bool ten_pow_21 q) with false.
  2:{ symmetry. apply not_true_is_false. intros H%Qle_bool_iff.
      apply (Qlt_not_le _ _ Hhi). eapply Qle_trans; [|exact H].
      unfold ten_pow_21, Qle, inject_Z. cbn [Qnum Qden]. lia. }
  exists (round_scaled f q). split; [apply round_scaled_range; assumption|].
  change ("" ++ fixed_notation f (round_scaled f q)) with (fixed_notation f (round_scaled f q)).
  apply fixed_notation_length. assumption.
Qed.

End WidthFacts.

(** ** Significant digits: [toPrecision] *)

Module PrecisionFacts.

Import FormatFacts.

Lemma num_digits_bounds n :
  0 < n -> 1 <= num_digits n /\ 10 ^ (num_digits n - 1) <= n < 10 ^ num_digits n.
Proof.
  intros Hn. unfold num_digits.
  destruct (WidthFacts.decimal_digits_length n) as (k & Hk & -> & Hup & Hlo); [lia|].
  destruct Hlo as [[-> _]|Hlo]; [lia|]. split; [lia|]. split; [|exact Hup].
  replace (Z.of_nat k) with (Z.succ (Z.of_nat k - 1)) in Hlo by lia.
  rewrite Z.pow_succ_r in Hlo by lia. lia.
Qed.

(** [pow10_le], with both sides scaled by [10^A]. *)
Lemma pow10_le_scaled k x A :
  0 <= A -> 0 <= k + A ->
  pow10_le k x = true <-> Z.pos (Qden x) * 10 ^ (k + A) <= Qnum x * 10 ^ A.
Proof.
  intros HA HkA. unfold pow10_le.
  assert (HpA : 0 < 10 ^ A) by (apply Z.pow_pos_nonneg; lia).
  destruct (Z.leb_spec 0 k) as [Hk|Hk]; rewrite Z.leb_le.
  - rewrite Z.pow_add_r by lia. split; intros H; nia.
  - replace A with (- k + (k + A)) at 2 by lia.
    rewrite (Z.pow_add_r 10 (- k) (k + A)) by lia.
    assert (0 < 10 ^ (k + A)) by (apply Z.pow_pos_nonneg; lia).
    split; intros H'; nia.
Qed.

Lemma floor_log10_spec x :
  0 < Qnum x ->
  pow10_le (floor_log10 x) x = true /\ pow10_le (floor_log10 x + 1) x = false.
Proof.
  intros Hx. unfold floor_log10.
  destruct (num_digits_bounds (Qnum x) Hx) as (Hn1 & Hnlo & Hnhi).
  destruct (num_digits_bounds (Z.pos (Qden x)) ltac:(lia)) as (Hd1 & Hdlo & Hdhi).
  set (dn := num_digits (Qnum x)) in *. set (dd := num_digits (Z.pos (Qden x))) in *.
  set (a := 10 ^ (dn - 1)) in *. set (b := 10 ^ (dd - 1)) in *.
  assert (Ha : 0 < a) by (apply Z.pow_pos_nonneg; lia).
  assert (Hb : 0 < b) by (apply Z.pow_pos_nonneg; lia).
  assert (Ean : 10 ^ dn = 10 * a).
  { subst a. rewrite <- Z.pow_succ_r by lia. f_equal. lia. }
  assert (Ebd : 10 ^ dd = 10 * b).
  { subst b. rewrite <- Z.pow_succ_r by lia. f_equal. lia. }
  assert (Hlow : pow10_le (dn - dd - 1) x = true).
  { apply (pow10_le_scaled _ _ (dd + 1)); [lia|lia|].
    replace (dn - dd - 1 + (dd + 1)) with dn by lia.
    rewrite Z.pow_add_r, Ebd, Ean by lia. change (10 ^ 1) with 10. nia. }
  assert (Hhigh : pow10_le (dn - dd + 1) x = false).
  { apply not_true_is_false. intros H.
    apply (pow10_le_scaled _ _ dd) in H; [|lia|lia].
    replace (dn - dd + 1 + dd) with (dn + 1) in H by lia.
    rewrite Z.pow_add_r, Ebd, Ean in H by lia. change (10 ^ 1) with 10 in H. nia. }
  destruct (pow10_le (dn - dd) x) eqn:E.
  - split; assumption.
  - split; [assumption|]. replace (dn - dd - 1 + 1) with (dn - dd) by lia. assumption.
Qed.


(** Powers of ten as fractions. *)
Lemma pow10_Q k :
  exists t : positive,
    (0 <= k -> Z.pos t = 10 ^ k /\ (10 ^ k == Z.pos t # 1)%Q)
    /\ (k < 0 -> Z.pos t = 10 ^ (- k) /\ (10 ^ k == 1 # t)%Q).
Proof.
  destruct (Z_le_gt_dec 0 k) as [Hk|Hk].
  - assert (Hp : 0 < 10 ^ k) by (apply Z.pow_pos_nonneg; lia).
    exists (Z.to_pos (10 ^ k)). split; [|lia]. intros _.
    rewrite Z2Pos.id by assumption. split; [reflexivity|].
    symmetry. apply (Zpower_Qpower 10 k Hk).
  - assert (Hp : 0 < 10 ^ (- k)) by (apply Z.pow_pos_nonneg; lia).
    exists (Z.to_pos (10 ^ (- k))). split; [lia|]. intros _.
    rewrite Z2Pos.id by assumption. split; [reflexivity|].
    replace k with (- - k) at 1 by lia. rewrite Qpower_opp.
    rewrite <- (Zpower_Qpower 10 (- k)) by lia.
    destruct (10 ^ (- k)) as [|t|t]; try lia. reflexivity.
Qed.

Lemma round_half_up N D :
  0 < D -> 2 * ((2 * N + D) / (2 * D)) * D <= 2 * N + D
           /\ 2 * N + D < 2 * ((2 * N + D) / (2 * D)) * D + 2 * D.
Proof.
  intros HD. pose proof (Z.mul_div_le (2 * N + D) (2 * D) ltac:(lia)).
  pose proof (Z.mul_succ_div_gt (2 * N + D) (2 * D) ltac:(lia)). lia.
Qed.

(** [round_shifted k x] is within one half of [x / 10^k]. *)
Lemma round_shifted_close k x :
  (Qabs (inject_Z (round_shifted k x) * 10 ^ k - x) <= (1 # 2) * 10 ^ k)%Q.
Proof.
  destruct (pow10_Q k) as (t & Hpos & Hneg). unfold round_shifted.
  destruct x as [a b]. cbn [Qnum Qden].
  destruct (Z.leb_spec 0 k) as [Hk|Hk].
  - destruct (Hpos Hk) as [Et ->]. rewrite <- Et.
    destruct (round_half_up a (Z.pos b * Z.pos t) ltac:(lia)) as [H1 H2].
    set (r := (2 * a + Z.pos b * Z.pos t) / (2 * (Z.pos b * Z.pos t))) in *.
    apply Qabs_Qle_condition.
    split; unfold Qle, Qminus, Qplus, Qmult, Qopp, inject_Z; cbn [Qnum Qden];
      rewrite ?Pos2Z.inj_mul; nia.
  - destruct (Hneg Hk) as [Et ->]. rewrite <- Et.
    destruct (round_half_up (a * Z.pos t) (Z.pos b) ltac:(lia)) as [H1 H2].
    set (r := (2 * (a * Z.pos t) + Z.pos b) / (2 * Z.pos b)) in *.
    apply Qabs_Qle_condition.
    split; unfold Qle, Qminus, Qplus, Qmult, Qopp, inject_Z; cbn [Qnum Qden];
      rewrite ?Pos2Z.inj_mul; nia.
Qed.

Lemma round_shifted_range k x lo hi :
  (inject_Z lo * 10 ^ k <= x)%Q -> (x < inject_Z hi * 10 ^ k)%Q ->
  lo <= round_shifted k x <= hi.
Proof.
  destruct (pow10_Q k) as (t & Hpos & Hneg). unfold round_shifted.
  destruct x as [a b]. cbn [Qnum Qden].
  destruct (Z.leb_spec 0 k) as [Hk|Hk].
  - destruct (Hpos Hk) as [Et ->]. rewrite <- Et.
    unfold Qle, Qlt, Qmult, inject_Z. cbn [Qnum Qden]. rewrite ?Pos2Z.inj_mul.
    intros Hlo Hhi. split.
    + apply Z.div_le_lower_bound; nia.
    + apply Z.lt_succ_r, Z.div_lt_upper_bound; nia.
  - destruct (Hneg Hk) as [Et ->]. rewrite <- Et.
    unfold Qle, Qlt, Qmult, inject_Z. cbn [Qnum Qden]. rewrite ?Pos2Z.inj_mul.
    intros Hlo Hhi. split.
    + apply Z.div_le_lower_bound; nia.
    + apply Z.lt_succ_r, Z.div_lt_upper_bound; nia.
Qed.

(** [pow10_le k x] compares [10^k] with [x]. *)
Lemma pow10_le_Q k x : pow10_le k x = true <-> (10 ^ k <= x)%Q.
Proof.
  destruct (pow10_Q k) as (t & Hpos & Hneg). unfold pow10_le.
  destruct (Z.leb_spec 0 k) as [Hk|Hk]; rewrite Z.leb_le.
  - destruct (Hpos Hk) as [Et ->]. rewrite <- Et.
    unfold Qle. cbn [Qnum Qden]. lia.
  - destruct (Hneg Hk) as [Et ->]. rewrite <- Et.
    unfold Qle. cbn [Qnum Qden]. lia.
Qed.


Lemma pow10_split (j : nat) k : (inject_Z (10 ^ Z.of_nat j) * 10 ^ k == 10 ^ (Z.of_nat j + k))%Q.
Proof.
  rewrite (Zpower_Qpower 10 (Z.of_nat j)) by lia.
  symmetry. apply Qpower_plus. discriminate.
Qed.

(** The digits and the exponent that [toPrecision] shows. *)
Lemma precision_digits_spec p x :
  (0 < p)%nat -> 0 < Qnum x ->
  10 ^ (Z.of_nat p - 1) <= fst (precision_digits p x) < 10 ^ Z.of_nat p
  /\ (Qabs (inject_Z (fst (precision_digits p x))
            * 10 ^ (snd (precision_digits p x) - Z.of_nat p + 1) - x)
      <= (1 # 2) * 10 ^ (snd (precision_digits p x) - Z.of_nat p + 1))%Q.
Proof.
  intros Hp Hx. destruct (floor_log10_spec x Hx) as [Hlo Hhi].
  apply pow10_le_Q in Hlo.
  assert (Hhi' : (x < 10 ^ (floor_log10 x + 1))%Q).
  { apply Qnot_le_lt. intros H%pow10_le_Q. congruence. }
  clear Hhi. unfold precision_digits.
  set (e := floor_log10 x) in *. set (k := e - Z.of_nat p + 1).
  assert (Hpow : 10 ^ (Z.of_nat p - 1) < 10 ^ Z.of_nat p)
    by (apply Z.pow_lt_mono_r; lia).
  assert (Hrange : 10 ^ (Z.of_nat p - 1) <= round_shifted k x <= 10 ^ Z.of_nat p).
  { apply round_shifted_range.
    - replace (Z.of_nat p - 1) with (Z.of_nat (p - 1)) by lia.
      rewrite pow10_split. replace (Z.of_nat (p - 1) + k) with e by lia. exact Hlo.
    - rewrite pow10_split. replace (Z.of_nat p + k) with (e + 1) by lia. exact Hhi'. }
  pose proof (round_shifted_close k x) as Hclose.
  destruct (Z.eqb_spec (round_shifted k x) (10 ^ Z.of_nat p)) as [E|E]; cbn [fst snd].
  - split; [lia|]. rewrite E in Hclose.
    replace (Z.of_nat p - 1) with (Z.of_nat (p - 1)) by lia.
    rewrite pow10_split in *.
    replace (Z.of_nat (p - 1) + (e + 1 - Z.of_nat p + 1)) with (Z.of_nat p + k) by lia.
    eapply Qle_trans; [exact Hclose|].
    apply Qmult_le_l; [reflexivity|].
    apply Qpower_le_compat_l; [lia|discriminate].
  - split; [lia|]. exact Hclose.
Qed.


Lemma decimal_digits_length_exact n (p : nat) :
  (0 < p)%nat -> 10 ^ (Z.of_nat p - 1) <= n < 10 ^ Z.of_nat p ->
  String.length (decimal_digits n) = p.
Proof.
  intros Hp [Hlo Hhi].
  assert (0 < 10 ^ (Z.of_nat p - 1)) by (apply Z.pow_pos_nonneg; lia).
  pose proof (WidthFacts.decimal_digits_at_most n p Hp ltac:(lia)).
  pose proof (WidthFacts.decimal_digits_at_least n (p - 1)) as Hleast.
  replace (Z.of_nat (p - 1)) with (Z.of_nat p - 1) in Hleast by lia.
  specialize (Hleast Hlo). lia.
Qed.

(** [toPrecision] shows its argument with [p] significant digits. *)
Lemma toPrecision_significant p q :
  (0 < p)%nat -> significant p q (toPrecision (Fin q) p).
Proof.
  intros Hp. unfold toPrecision, significant. cbv zeta.
  destruct (Qeq_bool (Qabs q) 0) eqn:Ez; cbn [fst snd].
  - apply Qeq_bool_iff in Ez.
    assert (Hq : (q == 0)%Q).
    { destruct q as [a b]. unfold Qeq, Qabs in *. cbn [Qnum Qden] in *. lia. }
    assert (Hlen : String.length (zeros p) = p) by apply length_zeros.
    exists (zeros p), (if (p =? 1)%nat then zeros p
                       else str_take (Z.to_nat (0 + 1)) (zeros p) ++ "."
                            ++ str_drop (Z.to_nat (0 + 1)) (zeros p))%string, 0, 0.
    split; [|split; [|split; [|split; [|split]]]].
    + change (0 <? -6) with false. replace (Z.of_nat p <=? 0) with false
        by (symmetry; apply Z.leb_gt; lia).
      cbn [orb]. destruct (Nat.eqb_spec p 1) as [->|Hne].
      * reflexivity.
      * replace (0 =? Z.of_nat p - 1) with false by (symmetry; apply Z.eqb_neq; lia).
        reflexivity.
    + destruct (Nat.eqb_spec p 1) as [->|Hne].
      * apply numeral_whole. reflexivity.
      * apply numeral_point. rewrite Hlen. lia.
    + exact Hlen.
    + rewrite <- (app_nil_r (zeros p)). rewrite digits_value_zeros. reflexivity.
    + right. split; [reflexivity|exact Hq].
    + rewrite Ez.
      assert (E : (inject_Z 0 * 10 ^ (0 - Z.of_nat p + 1) - 0 == 0)%Q) by ring.
      rewrite E. change (Qabs 0) with 0%Q. apply Qmult_le_0_compat; [discriminate|].
      apply Qlt_le_weak, Qpower_0_lt. reflexivity.
  - assert (Hx : 0 < Qnum (Qabs q)).
    { apply Qeq_bool_neq in Ez. destruct q as [a b]. unfold Qeq, Qabs in *.
      cbn [Qnum Qden] in *. lia. }
    destruct (precision_digits_spec p (Qabs q) Hp Hx) as (Hrange & Hclose).
    set (n := fst (precision_digits p (Qabs q))) in *.
    set (e := snd (precision_digits p (Qabs q))) in *.
    assert (Hlen : String.length (decimal_digits n) = p)
      by (apply decimal_digits_length_exact; assumption).
    set (m := decimal_digits n) in *.
    assert (Hval : digits_value m 0 = Some n) by (apply decimal_digits_spec; lia).
    assert (Hshow : forall body,
              numeral m e body ->
              exists (m0 body0 : string) (n0 e0 : Z),
                ((if Qle_bool 0 q then "" else "-") ++ body)%string
                = ((if Qle_bool 0 q then "" else "-") ++ body0)%string
                /\ numeral m0 e0 body0
                /\ String.length m0 = p
                /\ digits_value m0 0 = Some n0
                /\ (10 ^ (Z.of_nat p - 1) <= n0 \/ n0 = 0 /\ (q == 0)%Q)
                /\ (Qabs (inject_Z n0 * 10 ^ (e0 - Z.of_nat p + 1) - Qabs q)
                    <= (1 # 2) * 10 ^ (e0 - Z.of_nat p + 1))%Q).
    { intros body Hbody. exists m, body, n, e. repeat split; try assumption. left. lia. }
    destruct ((e <? -6) || (Z.of_nat p <=? e)) eqn:Eexp.
    + apply Hshow. rewrite <- Hlen at 1. apply numeral_exponent.
    + apply orb_false_iff in Eexp. destruct Eexp as [_ Hpe%Z.leb_gt].
      destruct (Z.eqb_spec e (Z.of_nat p - 1)) as [He|He].
      * apply Hshow, numeral_whole. lia.
      * destruct (Z.leb_spec 0 e) as [H0|H0].
        -- apply Hshow, numeral_point. lia.
        -- apply Hshow, numeral_small. lia.
Qed.

End PrecisionFacts.

(** ** Dataset normaliser *)

Section NormalizerFacts.

Context (host : Host).

Lemma has_points_obj set :
  is_Some (points set) -> has_points (VObj set) = Ok (nonempty set).
Proof.
  intros [pts Hpts]. unfold has_points, nonempty, points in *. cbn.
  destruct (set !! "data"%string) as [[]|] eqn:E; try discriminate.
  cbn. destruct elems; reflexivity.
Qed.

Lemma filter_sets_objs sets :
  Forall (fun set => is_Some (points set)) sets ->
  filter_sets (VObj <$> sets) = Ok (VObj <$> filter (fun set => nonempty set) sets).
Proof.
  induction 1 as [|set sets Hset _ IH]; [reflexivity|].
  rewrite filter_cons, fmap_cons. cbn [filter_sets].
  rewrite has_points_obj, IH by assumption.
  destruct (nonempty set); reflexivity.
Qed.

Lemma chartData_objs (data : gmap string value) sets :
  data !! "datasets"%string = Some (VArr (VObj <$> sets)) ->
  Forall (fun set => is_Some (points set)) sets ->
  chartData host data
  = Ok (<["datasets"%string :=
            VArr (VObj <$> ((fun set => set ∪ dataset_defaults host)
                            <$> filter (fun set => nonempty set) sets))]> data).
Proof.
  intros Hdata Hsets.
  unfold chartData. rewrite Hdata. unfold default, id, normalize_datasets.
  rewrite filter_sets_objs by assumption. cbn [bind].
  do 3 f_equal. rewrite <- !list_fmap_compose. reflexivity.
Qed.

End NormalizerFacts.

(** C1. For every dataset sequence whose members carry a point array,
    [chartData] keeps exactly the datasets with at least one point, in
    their order and with their points unchanged.  Every kept dataset
    retains each attribute the caller gave it, and receives the default
    for each attribute the caller left out: [barPercentage = 1],
    [categoryPercentage = 1] and [borderWidth = { top: 3 }]. *)
Theorem C1_chartData_normalizes (host : Host) (data : gmap string value)
    (sets : list (gmap string value)) :
  data !! "datasets"%string = Some (VArr (VObj <$> sets)) ->
  Forall (fun set => is_Some (points set)) sets ->
  exists out : list (gmap string value),
    chartData host data = Ok (<["datasets"%string := VArr (VObj <$> out)]> data)
    /\ Forall2 (fun o set =>
                  points o = points set
                  /\ (forall k v, set !! k = Some v -> o !! k = Some v)
                  /\ (forall k, set !! k = None -> o !! k = dataset_defaults host !! k))
               out (filter (fun set => nonempty set) sets)
    /\ dataset_defaults host !! "barPercentage"%string = Some (VInt 1)
    /\ dataset_defaults host !! "categoryPercentage"%string = Some (VInt 1)
    /\ dataset_defaults host !! "borderWidth"%string
       = Some (VObj {[ "top"%string := VInt 3 ]}).
Proof.
  intros Hdata Hsets.
  exists ((fun set => set ∪ dataset_defaults host) <$> filter (fun set => nonempty set) sets).
  split; [|split; [|repeat split]].
  - apply chartData_objs; assumption.
  - apply Forall2_fmap_l, Forall_Forall2_diag, Forall_forall.
    intros set _. cbn. split; [|split].
    + unfold points. rewrite lookup_union.
      destruct (set !! "data"%string) as [[]|] eqn:E; try reflexivity.
    + intros k v Hk. rewrite lookup_union, Hk.
      destruct (dataset_defaults host !! k); reflexivity.
    + intros k Hk. rewrite lookup_union, Hk.
      destruct (dataset_defaults host !! k); reflexivity.
Qed.

(** ** The component *)

(** C2. When no dataset with points remains the component returns the
    placeholder; when at least one remains it returns the chart element,
    whose data are the caller's data with the normalised non-empty datasets
    as [datasets], and whose options are the merged options. *)
Theorem C2_no_data_or_chart (host : Host) (theme : ThemeColors) (props : Props)
    (sets : list (gmap string value)) :
  data props !! "datasets"%string = Some (VArr (VObj <$> sets)) ->
  Forall (fun set => is_Some (points set)) sets ->
  let kept := filter (fun set => nonempty set) sets in
  (kept = [] -> BarChart host theme props = Ok NoMetrics)
  /\ (kept <> [] ->
      BarChart host theme props
      = Ok (Chart (cssNames host "BarChart flex box grow column" (className props))
                  (ChartKind_BAR host)
                  (<["datasets"%string :=
                       VArr (VObj <$> ((fun set => set ∪ dataset_defaults host)
                                       <$> kept))]> (data props))
                  (Lodash.merge (barOptions theme) (options props))
                  (resolved_plugins host props) (settings props))).
Proof.
  intros Hdata Hsets kept.
  assert (Hrun : BarChart host theme props
                 = if bool_decide (kept = []) then Ok NoMetrics
                   else Ok (Chart (cssNames host "BarChart flex box grow column"
                                            (className props))
                                  (ChartKind_BAR host)
                                  (<["datasets"%string :=
                                       VArr (VObj <$> ((fun set => set ∪ dataset_defaults host)
                                                       <$> kept))]> (data props))
                                  (Lodash.merge (barOptions theme) (options props))
                                  (resolved_plugins host props) (settings props))).
  { unfold BarChart. rewrite (chartData_objs host _ sets) by assumption.
    cbn [bind]. rewrite lookup_insert_eq.
    unfold default, id, get_length. cbn [bind].
    rewrite !length_fmap. fold kept. destruct kept; reflexivity. }
  rewrite Hrun. split; intros Hkept.
  - rewrite bool_decide_eq_true_2; done.
  - rewrite bool_decide_eq_false_2; done.
Qed.

(** ** Time-axis labels *)

Lemma Qeq_bool_inject_Z (a b : Z) : Qeq_bool (inject_Z a) (inject_Z b) = (a =? b).
Proof.
  unfold Qeq_bool, inject_Z. cbn [Qnum Qden].
  rewrite !Z.mul_1_r. reflexivity.
Qed.

Lemma js_rem_is_zero (index step : Z) :
  num_eq (js_rem index step) (of_Z 0) = true <-> index <> 0 /\ (step | index) \/ index = 0 /\ step <> 0.
Proof.
  unfold js_rem. destruct (Z.eqb_spec step 0) as [->|Hstep]; cbn [num_eq of_Z].
  - split; [discriminate|]. intros [[Hne Hdiv]|[_ Hne]]; [|contradiction].
    apply Z.divide_0_l in Hdiv. contradiction.
  - rewrite Qeq_bool_inject_Z, Z.eqb_eq, Z.rem_divide by assumption.
    destruct (Z.eq_dec index 0) as [->|Hne].
    + split; [tauto|]. intros _. apply Z.divide_0_r.
    + tauto.
Qed.

(** C3. The label of tick [index] for a timestamp: the [HH:mm] label
    after five spaces at index 0; the label followed by five spaces at
    index 60; at any other index the bare label when the index is a
    multiple of the label step and the empty string otherwise.  The
    component uses the step of its properties, 10 when they give none;
    with step 10, index 25 has no label and index 30 has the bare one. *)
Theorem C3_formatTimeLabels (host : Host) (step : Z) (timestamp : string) (index : Z) :
  let label := moment_format host (parseInt host timestamp) "HH:mm" in
  formatTimeLabels host step timestamp index
  = (if Z.eq_dec index 0 then "     " ++ label
     else if Z.eq_dec index 60 then label ++ "     "
     else if decide (step | index) then label
     else "")%string
  /\ (forall props,
        BarChart_formatTimeLabels host props timestamp index
        = formatTimeLabels host (default 10 (timeLabelStep props)) timestamp index)
  /\ formatTimeLabels host 10 timestamp 25 = ""%string
  /\ formatTimeLabels host 10 timestamp 30 = label.
Proof.
  intros label. split; [|repeat split].
  unfold formatTimeLabels. fold label.
  destruct (Z.eq_dec index 0) as [->|H0]; [reflexivity|].
  destruct (Z.eqb_spec index 0) as [|_]; [contradiction|].
  destruct (Z.eq_dec index 60) as [->|H60]; [reflexivity|].
  destruct (Z.eqb_spec index 60) as [|_]; [contradiction|].
  destruct (decide (step | index)) as [Hdiv|Hdiv].
  - replace (num_eq (js_rem index step) (of_Z 0)) with true; [reflexivity|].
    symmetry. apply js_rem_is_zero. tauto.
  - destruct (num_eq (js_rem index step) (of_Z 0)) eqn:E; [|reflexivity].
    apply js_rem_is_zero in E. tauto.
Qed.

Example formatTimeLabels_first :
  formatTimeLabels sample_host 10 "45240000" 0 = "     12:34"%string.
Proof. reflexivity. Qed.

Example formatTimeLabels_last :
  formatTimeLabels sample_host 10 "48840000" 60 = "13:34     "%string.
Proof. reflexivity. Qed.

Example formatTimeLabels_step :
  formatTimeLabels sample_host 10 "47040000" 30 = "13:04"%string.
Proof. reflexivity. Qed.

Example formatTimeLabels_between :
  formatTimeLabels sample_host 10 "46740000" 25 = ""%string.
Proof. reflexivity. Qed.

(** ** Tooltip title *)

(** C4. For a hovered tick whose label denotes the time [t], the tooltip
    title is empty when [t] is strictly later than the current time and is
    the label itself otherwise. *)
Theorem C4_tooltips_title (host : Host) (now t : Q) (item : gmap string value)
    (rest : list value) (xLabel : value) :
  item !! "xLabel"%string = Some xLabel ->
  Date_getTime host xLabel = Fin t ->
  tooltips_title host (Fin now) (VObj item :: rest)
  = Ok (if Qlt_le_dec now t then ""%string else ToString host xLabel)
  /\ forall s, xLabel = VStr s -> ToString host xLabel = s.
Proof.
  intros Hitem Htime. split; [|intros s ->; reflexivity].
  unfold tooltips_title. cbn [lookup list_lookup default id get bind].
  rewrite Hitem. cbn [default id]. rewrite Htime.
  unfold num_gt, num_lt.
  destruct (Qlt_le_dec now t) as [Hlt|Hle].
  - replace (Qle_bool t now) with false; [reflexivity|].
    symmetry. apply not_true_is_false. intros H%Qle_bool_iff.
    exact (Qlt_not_le _ _ Hlt H).
  - apply Qle_bool_iff in Hle. rewrite Hle. reflexivity.
Qed.

(** ** Tooltip body lines *)

(** The specification's scaler shows a byte count with the precision it
    is given as the number of significant digits. *)
Lemma spec_bytesToUnits_scaled p q :
  (0 < p)%nat -> byte_scaled p q (spec_bytesToUnits (Fin q) p).
Proof.
  intros Hp. unfold spec_bytesToUnits, byte_scaled. cbv zeta.
  assert (Hsig : forall i, significant p (q / inject_Z (1024 ^ Z.of_nat i))
                             (toPrecision (Fin (q / inject_Z (1024 ^ Z.of_nat i))) p))
    by (intros i; apply PrecisionFacts.toPrecision_significant, Hp).
  unfold unit_index.
  destruct (Qle_bool (inject_Z (1024 ^ 3)) (Qabs q)) eqn:E3.
  { exists 3%nat, "GB"%string, (toPrecision (Fin (q / inject_Z (1024 ^ Z.of_nat 3))) p).
    repeat split; [apply Hsig| |left; reflexivity].
    right. apply Qle_bool_iff. exact E3. }
  assert (H3 : (Qabs q < inject_Z (1024 ^ 3))%Q).
  { apply Qnot_le_lt. intros H%Qle_bool_iff. congruence. }
  destruct (Qle_bool (inject_Z (1024 ^ 2)) (Qabs q)) eqn:E2.
  { exists 2%nat, "MB"%string, (toPrecision (Fin (q / inject_Z (1024 ^ Z.of_nat 2))) p).
    repeat split; [apply Hsig| |right; exact H3].
    right. apply Qle_bool_iff. exact E2. }
  assert (H2 : (Qabs q < inject_Z (1024 ^ 2))%Q).
  { apply Qnot_le_lt. intros H%Qle_bool_iff. congruence. }
  destruct (Qle_bool (inject_Z (1024 ^ 1)) (Qabs q)) eqn:E1.
  { exists 1%nat, "KB"%string, (toPrecision (Fin (q / inject_Z (1024 ^ Z.of_nat 1))) p).
    repeat split; [apply Hsig| |right; exact H2].
    right. apply Qle_bool_iff. exact E1. }
  assert (H1 : (Qabs q < inject_Z (1024 ^ 1))%Q).
  { apply Qnot_le_lt. intros H%Qle_bool_iff. congruence. }
  exists 0%nat, "B"%string, (toPrecision (Fin (q / inject_Z (1024 ^ Z.of_nat 0))) p).
  repeat split; [apply Hsig|left; reflexivity|right; exact H1].
Qed.

(** C5, for the number that is read from the point's value.  For a
    tooltip item that designates the point [point] of the dataset [set],
    the body line is the dataset's label, a colon and a space, and then:
    - with the memory options, the text of the byte-unit scaler called
      with precision 3 on what [parseInt] reads from the text of the
      point's [y]; when that is the integer [n] and the scaler is the
      specification's, the text shows [n], scaled to its unit, with three
      significant digits;
    - with the CPU options, the number [q] that [parseFloat] reads from
      the text of the point's [y], shown with two significant digits. *)
Theorem C5_tooltips_label (host : Host) (sets : list value) (datasetIndex index : nat)
    (set point : gmap string value) (pts : list value) (label y : value) :
  sets !! datasetIndex = Some (VObj set) ->
  set !! "label"%string = Some label ->
  set !! "data"%string = Some (VArr pts) ->
  pts !! index = Some (VObj point) ->
  point !! "y"%string = Some y ->
  y <> VUndefined -> y <> VNull ->
  memory_tooltips_label host datasetIndex index (VArr sets)
  = Ok (ToString host label ++ ": "
        ++ bytesToUnits host (parseInt host (ToString host y)) (Some 3%nat))%string
  /\ (forall n : Z,
        parseInt host (ToString host y) = of_Z n ->
        (forall v p, bytesToUnits host v (Some p) = spec_bytesToUnits v p) ->
        exists text,
          memory_tooltips_label host datasetIndex index (VArr sets)
          = Ok (ToString host label ++ ": " ++ text)%string
          /\ byte_scaled 3 (inject_Z n) text)
  /\ (forall q : Q,
        parseFloat host (ToString host y) = Fin q ->
        exists text,
          cpu_tooltips_label host datasetIndex index (VArr sets)
          = Ok (ToString host label ++ ": " ++ text)%string
          /\ significant 2 q text).
Proof.
  intros Hset Hlabel Hdata Hpoint Hy Hundef Hnull.
  assert (Hmem : memory_tooltips_label host datasetIndex index (VArr sets)
                 = Ok (ToString host label ++ ": "
                       ++ bytesToUnits host (parseInt host (ToString host y))
                            (Some 3%nat))%string).
  { unfold memory_tooltips_label, tooltip_point, at_index, get.
    rewrite Hset. cbn [default id bind]. rewrite Hlabel, Hdata. cbn [default id bind].
    rewrite Hpoint. cbn [default id bind fst snd]. rewrite Hy. cbn [default id bind].
    destruct y; try contradiction; reflexivity. }
  assert (Hcpu : cpu_tooltips_label host datasetIndex index (VArr sets)
                 = Ok (ToString host label ++ ": "
                       ++ toPrecision (parseFloat host (ToString host y)) 2)%string).
  { unfold cpu_tooltips_label, tooltip_point, at_index, get.
    rewrite Hset. cbn [default id bind]. rewrite Hlabel, Hdata. cbn [default id bind].
    rewrite Hpoint. cbn [default id bind fst snd]. rewrite Hy. reflexivity. }
  split; [exact Hmem|]. split.
  - intros n Hn Hscaler. eexists. split; [exact Hmem|].
    rewrite Hn, Hscaler. apply spec_bytesToUnits_scaled. lia.
  - intros q Hq. eexists. split; [exact Hcpu|].
    rewrite Hq. apply PrecisionFacts.toPrecision_significant. lia.
Qed.

Lemma append_inv_tail (t : string) : forall s s' : string,
  (s ++ t = s' ++ t)%string -> s = s'.
Proof.
  assert (Hlen : forall (s : string) c, (String c s ++ t)%string <> t).
  { intros s c E. apply (f_equal String.length) in E.
    rewrite FormatFacts.app_cons in E. cbn [String.length] in E.
    rewrite FormatFacts.length_app in E. lia. }
  induction s as [|c s IH]; intros [|c' s'] E.
  - reflexivity.
  - symmetry in E. destruct (Hlen _ _ E).
  - destruct (Hlen _ _ E).
  - rewrite !FormatFacts.app_cons in E. injection E as -> E. f_equal. apply IH, E.
Qed.

(** The text ["1.00"] does not show one and a half with three
    significant digits. *)
Lemma not_significant_truncated : ~ significant 3 (3 # 2) "1.00".
Proof.
  intros (m & body & n & e & Hs & Hnum & Hlen & Hval & _ & Hclose).
  change (if Qle_bool 0 (3 # 2) then ""%string else "-"%string) with ""%string in Hs.
  change ("" ++ body)%string with body in Hs. subst body.
  destruct m as [|a [|b [|c [|]]]]; try discriminate Hlen. clear Hlen.
  inversion Hnum as [He Hb|He Hb|He Hb|Hb]; clear Hnum.
  assert (He' : e = 0 \/ e = 1) by (cbn in He; lia).
  destruct He' as [-> | ->]; vm_compute in Hb.
  - injection Hb as -> -> ->. vm_compute in Hval. injection Hval as <-.
    apply Qle_bool_iff in Hclose. vm_compute in Hclose. discriminate Hclose.
  - discriminate Hb.
Qed.

(** C5 as stated does not hold: the byte line does not show the point's
    value.  For a point of one byte and a half the code hands the scaler
    the integer 1 that [parseInt] reads from ["1.5"], and the line is
    ["m: 1.00 B"], which does not show 1.5 with three significant digits;
    the scaler on the value itself gives ["1.50 B"]. *)
Lemma C5_memory_label_truncates :
  memory_tooltips_label spec_host 0 0 (VArr [VObj sample_fraction]) = Ok "m: 1.00 B"%string
  /\ ~ (exists text,
          memory_tooltips_label spec_host 0 0 (VArr [VObj sample_fraction])
          = Ok ("m: " ++ text)%string
          /\ byte_scaled 3 (3 # 2) text)
  /\ bytesToUnits spec_host (Fin (3 # 2)) (Some 3%nat) = "1.50 B"%string
  /\ byte_scaled 3 (3 # 2) "1.50 B".
Proof.
  assert (Hline : memory_tooltips_label spec_host 0 0 (VArr [VObj sample_fraction])
                  = Ok "m: 1.00 B"%string) by (vm_compute; reflexivity).
  split; [exact Hline|]. split; [|split; [vm_compute; reflexivity|]].
  - intros (text & Htext & i & unit & num & Hunit & Hs & Hsig & Hlo & _).
    rewrite Hline in Htext. vm_compute in Htext. injection Htext as <-.
    assert (Hi : i = 0%nat).
    { destruct Hlo as [|Hlo]; [assumption|].
      destruct i as [|[|[|[|i]]]]; try discriminate Hunit; try reflexivity;
        apply Qle_bool_iff in Hlo; vm_compute in Hlo; discriminate Hlo. }
    subst i. injection Hunit as <-.
    apply (append_inv_tail " B" "1.00" num) in Hs. subst num.
    apply not_significant_truncated. exact Hsig.
  - exact (spec_bytesToUnits_scaled 3 (3 # 2) ltac:(lia)).
Qed.

(** ** Merging the caller's options: lodash [merge] *)

Lemma size_elem l i v : l !! i = Some v -> (size v < size (VArr l))%nat.
Proof.
  revert i. induction l as [|x l IH]; intros [|i] H; try discriminate; cbn in *.
  - injection H as ->. lia.
  - specialize (IH _ H). cbn in IH. lia.
Qed.

Lemma size_prop (m : gmap string value) k v :
  m !! k = Some v -> (size v < size (VObj m))%nat.
Proof.
  intros H. cbn [size].
  rewrite (map_fold_delete_L _ _ k v m); [lia| |assumption].
  intros. lia.
Qed.

Module LodashFacts.
Import Lodash (mergeValue, sequence, merge_list, merge_props).

Lemma mergeValue_VObj sp od :
  mergeValue (VObj sp) od
  = match od with
    | Some (VObj dp) => VObj <$> merge_props dp sp
    | Some (VArr _) | Some (VFun _) => None
    | _ => VObj <$> merge_props ∅ sp
    end.
Proof. destruct od as [[]|]; reflexivity. Qed.

Lemma mergeValue_VArr sl od :
  mergeValue (VArr sl) od
  = match od with
    | Some (VArr dl) => VArr <$> merge_list dl sl
    | Some (VObj dp) =>
        match dp !! "length"%string with
        | Some _ => None
        | None => VArr <$> merge_list [] sl
        end
    | _ => VArr <$> merge_list [] sl
    end.
Proof.
  assert (H : forall dl,
    (fix go (dl sl : list value) {struct sl} : option (list value) :=
       match sl with
       | [] => Some dl
       | s :: sl' =>
           r ← mergeValue s (head dl);
           rs ← go (tail dl) sl';
           Some (r :: rs)
       end) dl sl = merge_list dl sl).
  { induction sl as [|s sl IH]; intros dl; [reflexivity|].
    cbn [merge_list]. rewrite <- (IH (tail dl)). reflexivity. }
  destruct od as [[]|]; rewrite <- ?H; reflexivity.
Qed.

Lemma sequence_lookup (m : gmap string (option value)) r k :
  sequence m = Some r -> m !! k = Some <$> r !! k.
Proof.
  unfold sequence. case_bool_decide as Hall; [|discriminate].
  intros [= <-]. rewrite lookup_omap.
  destruct (m !! k) as [[y|]|] eqn:E; try reflexivity.
  destruct (Hall _ _ E) as [? [=]].
Qed.

Lemma merge_props_lookup dp sp r k :
  merge_props dp sp = Some r ->
  match sp !! k with
  | Some s => exists y, mergeValue s (dp !! k) = Some y /\ r !! k = Some y
  | None => r !! k = dp !! k
  end.
Proof.
  intros H%(sequence_lookup _ _ k). rewrite lookup_merge in H.
  destruct (sp !! k) as [s|], (dp !! k) as [d|], (r !! k) as [y|];
    cbn in H; try discriminate; try injection H as H; subst; eauto.
Qed.

Lemma merge_list_lookup sl : forall dl rl i,
  merge_list dl sl = Some rl ->
  match sl !! i with
  | Some s => exists y, mergeValue s (dl !! i) = Some y /\ rl !! i = Some y
  | None => rl !! i = dl !! i
  end.
Proof.
  induction sl as [|s sl IH]; intros dl rl i H; cbn [merge_list] in H.
  - injection H as <-. reflexivity.
  - destruct (mergeValue s (head dl)) as [y|] eqn:Ey; [|discriminate].
    destruct (merge_list (tail dl) sl) as [ys|] eqn:Eys; [|discriminate].
    injection H as <-. destruct i as [|i]; cbn [lookup list_lookup].
    + exists y. split; [|reflexivity]. rewrite <- Ey. f_equal. destruct dl; reflexivity.
    + specialize (IH _ _ i Eys).
      replace (tail dl !! i) with (dl !! S i) in IH by (destruct dl; reflexivity).
      exact IH.
Qed.

(** Merging into nothing copies the source. *)
Lemma mergeValue_fresh sv : mergeValue sv None = Some sv.
Proof.
  remember (size sv) as n eqn:En. revert sv En.
  induction (lt_wf n) as [n _ IH]. intros sv ->.
  destruct sv as [| | | | | |sl|sp]; try reflexivity.
  - rewrite mergeValue_VArr. cbn.
    assert (H : forall l, (forall i v, l !! i = Some v -> mergeValue v None = Some v) ->
                          merge_list [] l = Some l).
    { induction l as [|x l IHl]; intros Hl; [reflexivity|]. cbn.
      rewrite (Hl 0%nat x eq_refl). cbn.
      rewrite IHl; [reflexivity|]. intros i v Hi. exact (Hl (S i) v Hi). }
    rewrite H; [reflexivity|].
    intros i v Hi. eapply IH; [|reflexivity]. eapply size_elem, Hi.
  - rewrite mergeValue_VObj. unfold merge_props.
    assert (E : base.merge (fun os od =>
                   match os with
                   | Some s => Some (mergeValue s od)
                   | None => Some <$> od
                   end) sp ∅ = Some <$> sp).
    { apply map_eq. intros k. rewrite lookup_merge, lookup_fmap, lookup_empty.
      destruct (sp !! k) as [s|] eqn:Es; [|reflexivity]. cbn.
      erewrite IH; [reflexivity| |reflexivity]. eapply size_prop, Es. }
    rewrite E. unfold sequence. rewrite bool_decide_eq_true_2.
    + cbn. do 2 f_equal. apply map_eq. intros k.
      rewrite lookup_omap, lookup_fmap. destruct (sp !! k); reflexivity.
    + intros k o. rewrite lookup_fmap. destruct (sp !! k); intros [= <-]. eauto.
Qed.

Lemma base_child_found k d c : child k d = Found c -> base_child k (Some d) = Some c.
Proof.
  destruct k, d; cbn; try discriminate.
  - destruct (props !! name0); cbn; congruence.
  - destruct (elems !! i); cbn; congruence.
Qed.

Lemma merge_child k sv od rv sv' :
  mergeValue sv od = Some rv ->
  child k sv = Found sv' ->
  exists rv', mergeValue sv' (base_child k od) = Some rv' /\ child k rv = Found rv'.
Proof.
  intros Hm Hc. destruct k as [n|i], sv as [| | | | | |sl|sp]; try discriminate.
  - cbn in Hc. destruct (sp !! n) as [s|] eqn:Es; [|discriminate].
    injection Hc as ->. rewrite mergeValue_VObj in Hm.
    assert (Hgo : forall dp r, merge_props dp sp = Some r ->
              exists rv', mergeValue sv' (dp !! n) = Some rv' /\ r !! n = Some rv').
    { intros dp r Hr. pose proof (merge_props_lookup _ _ _ n Hr) as H.
      rewrite Es in H. exact H. }
    destruct od as [[| | | | | | |dp]|]; try discriminate;
      destruct (merge_props _ sp) as [r|] eqn:Er; try discriminate;
      injection Hm as <-; destruct (Hgo _ _ Er) as (rv' & H1 & H2);
      exists rv'; cbn; rewrite H2; rewrite ?lookup_empty in H1; auto.
  - cbn in Hc. destruct (sl !! i) as [s|] eqn:Es; [|discriminate].
    injection Hc as ->. rewrite mergeValue_VArr in Hm.
    assert (Hgo : forall dl r, merge_list dl sl = Some r ->
              exists rv', mergeValue sv' (dl !! i) = Some rv' /\ r !! i = Some rv').
    { intros dl r Hr. pose proof (merge_list_lookup _ _ _ i Hr) as H.
      rewrite Es in H. exact H. }
    destruct od as [[| | | | | |dl|dp]|]; try discriminate;
      try (destruct (dp !! "length"%string); [discriminate|]);
      destruct (merge_list _ sl) as [r|] eqn:Er; try discriminate;
      injection Hm as <-; destruct (Hgo _ _ Er) as (rv' & H1 & H2);
      exists rv'; cbn; rewrite H2; auto.
Qed.

Lemma merge_child_missing k sv d rv c :
  mergeValue sv (Some d) = Some rv ->
  child k sv = Missing ->
  child k d = Found c ->
  child k rv = Found c.
Proof.
  intros Hm Hs Hd. destruct k as [n|i], sv as [| | | | | |sl|sp]; try discriminate;
    destruct d as [| | | | | |dl|dp]; try discriminate; cbn in Hs, Hd.
  - rewrite mergeValue_VObj in Hm.
    destruct (merge_props dp sp) as [r|] eqn:Er; [|discriminate]. injection Hm as <-.
    pose proof (merge_props_lookup _ _ _ n Er) as H.
    destruct (sp !! n); [discriminate|]. cbn. rewrite H. exact Hd.
  - rewrite mergeValue_VArr in Hm.
    destruct (merge_list dl sl) as [r|] eqn:Er; [|discriminate]. injection Hm as <-.
    pose proof (merge_list_lookup _ _ _ i Er) as H.
    destruct (sl !! i); [discriminate|]. cbn. rewrite H. exact Hd.
Qed.

Lemma leaf_wins p : forall sv od rv v,
  mergeValue sv od = Some rv ->
  walk p sv = Found v -> is_leaf v = true ->
  walk p rv = Found v.
Proof.
  induction p as [|k p IH]; intros sv od rv v Hm Hw Hv.
  - injection Hw as ->. destruct v; try discriminate; cbn in *; congruence.
  - cbn in Hw |- *. destruct (child k sv) as [sv'| |] eqn:Ec; try discriminate.
    destruct (merge_child _ _ _ _ _ Hm Ec) as (rv' & Hm' & ->). eauto.
Qed.

Lemma override_only p : forall sv od rv v,
  mergeValue sv od = Some rv ->
  walk p sv = Found v ->
  (forall w, from_option (walk p) Missing od <> Found w) ->
  walk p rv = Found v.
Proof.
  induction p as [|k p IH]; intros sv od rv v Hm Hw Hd.
  - injection Hw as ->. destruct od as [d|]; [destruct (Hd d); reflexivity|].
    rewrite mergeValue_fresh in Hm. cbn. congruence.
  - cbn in Hw |- *. destruct (child k sv) as [sv'| |] eqn:Ec; try discriminate.
    destruct (merge_child _ _ _ _ _ Hm Ec) as (rv' & Hm' & ->).
    eapply IH; [exact Hm'|exact Hw|]. intros w.
    destruct (base_child k od) as [c|] eqn:Eb; [|discriminate]. cbn.
    intros Hc. apply (Hd w).
    destruct od as [d|]; [|destruct k; discriminate]. cbn.
    assert (child k d = Found c) as ->; [|exact Hc].
    destruct k, d; try discriminate; cbn in Eb |- *; rewrite Eb; reflexivity.
Qed.

Lemma default_kept p : forall sv d rv v,
  mergeValue sv (Some d) = Some rv ->
  walk p sv = Missing ->
  walk p d = Found v ->
  walk p rv = Found v.
Proof.
  induction p as [|k p IH]; intros sv d rv v Hm Hs Hd; [discriminate|].
  cbn in Hs, Hd |- *.
  destruct (child k d) as [c| |] eqn:Ed; try discriminate.
  destruct (child k sv) as [sv'| |] eqn:Ec; try discriminate.
  - destruct (merge_child _ _ _ _ _ Hm Ec) as (rv' & Hm' & ->).
    rewrite (base_child_found _ _ _ Ed) in Hm'. eauto.
  - rewrite (merge_child_missing _ _ _ _ _ Hm Ec Ed). exact Hd.
Qed.

Lemma undefined_skipped p : forall sv d rv v,
  mergeValue sv (Some d) = Some rv ->
  walk p sv = Found VUndefined ->
  walk p d = Found v ->
  walk p rv = Found v.
Proof.
  induction p as [|k p IH]; intros sv d rv v Hm Hs Hd.
  - injection Hs as ->. injection Hd as ->. cbn in *. congruence.
  - cbn in Hs, Hd |- *.
    destruct (child k d) as [c| |] eqn:Ed; try discriminate.
    destruct (child k sv) as [sv'| |] eqn:Ec; try discriminate.
    destruct (merge_child _ _ _ _ _ Hm Ec) as (rv' & Hm' & ->).
    rewrite (base_child_found _ _ _ Ed) in Hm'. eauto.
Qed.

Lemma merge_Some d o r :
  Lodash.merge d (Some o) = Some r ->
  mergeValue (VObj o) (Some (VObj d)) = Some (VObj r).
Proof.
  unfold Lodash.merge.
  destruct (mergeValue (VObj o) (Some (VObj d))) as [[]|]; congruence.
Qed.

End LodashFacts.

Lemma walk_app p p' v :
  walk (p ++ p') v = match walk p v with
                     | Found c => walk p' c
                     | other => other
                     end.
Proof.
  revert v. induction p as [|k p IH]; intros v; [reflexivity|].
  cbn [app walk]. destruct (child k v); [apply IH|reflexivity..].
Qed.

Lemma some_default {A} (x : option A) (d : A) :
  is_Some x -> x = Some (default d x).
Proof. intros [a ->]. reflexivity. Qed.

(** The example of lodash's documentation: arrays are merged index by
    index. *)
Example merge_documentation_example :
  Lodash.merge
    {[ "a"%string := VArr [ VObj {[ "b"%string := VInt 2 ]};
                            VObj {[ "d"%string := VInt 4 ]} ] ]}
    (Some {[ "a"%string := VArr [ VObj {[ "c"%string := VInt 3 ]};
                                  VObj {[ "e"%string := VInt 5 ]} ] ]})
  = Some {[ "a"%string := VArr [ VObj {[ "b"%string := VInt 2; "c"%string := VInt 3 ]};
                                 VObj {[ "d"%string := VInt 4; "e"%string := VInt 5 ]} ] ]}.
Proof. vm_compute. reflexivity. Qed.

(** Merging either exported bundle onto the computed options is
    described, whatever the theme. *)
Lemma merge_bundles_described (theme : ThemeColors) :
  is_Some (Lodash.merge (barOptions theme) (Some memoryOptions))
  /\ is_Some (Lodash.merge (barOptions theme) (Some cpuOptions)).
Proof. split; apply is_Some_alt; vm_compute; exact I. Qed.

(** C6, with arrays merged by index.  Without overrides the computed
    defaults are the options.  With overrides, whenever the merge is described:
    - a caller's value that is neither [undefined] nor a container is
      found in the result at the same path, at any depth, through objects
      and through array indices;
    - whatever the caller sets at a path that leads to nothing in the
      defaults is found unchanged in the result;
    - whatever the defaults hold at a path on which the caller's options
      lack a key, or an index, is kept: objects combine key by key and
      arrays combine index by index;
    - where the caller's value is [undefined], the default is kept. *)
Theorem C6_merge_by_key_and_index (defaults overrides options : gmap string value) :
  Lodash.merge defaults None = Some defaults
  /\ (Lodash.merge defaults (Some overrides) = Some options ->
      (forall p v, walk p (VObj overrides) = Found v -> is_leaf v = true ->
                   walk p (VObj options) = Found v)
      /\ (forall p v, walk p (VObj overrides) = Found v ->
                      (forall w, walk p (VObj defaults) <> Found w) ->
                      walk p (VObj options) = Found v)
      /\ (forall p v, walk p (VObj overrides) = Missing ->
                      walk p (VObj defaults) = Found v ->
                      walk p (VObj options) = Found v)
      /\ (forall p v, walk p (VObj overrides) = Found VUndefined ->
                      walk p (VObj defaults) = Found v ->
                      walk p (VObj options) = Found v)).
Proof.
  split; [reflexivity|]. intros H%LodashFacts.merge_Some. repeat split; intros p v.
  - intros Hw Hv. exact (LodashFacts.leaf_wins p _ _ _ _ H Hw Hv).
  - intros Hw Hd. exact (LodashFacts.override_only p _ _ _ _ H Hw Hd).
  - intros Hw Hd. exact (LodashFacts.default_kept p _ _ _ _ H Hw Hd).
  - intros Hw Hd. exact (LodashFacts.undefined_skipped p _ _ _ _ H Hw Hd).
Qed.

(** C6 with arrays replaced wholesale does not hold: an array among the
    overrides does not replace the default array.  [memoryOptions] holds the array [scales.yAxes], whose
    only element has no [position]; merged onto [barOptions], element 0 of
    [scales.yAxes] still has the default [position] and the default
    [ticks.maxTicksLimit] next to the override's [ticks.stepSize].  And a
    caller's [undefined] does not win over the default. *)
Lemma C6_arrays_merge_by_index :
  let yAxes := [Key "scales"; Key "yAxes"]%string in
  let options := default ∅ (Lodash.merge (barOptions dark_theme) (Some memoryOptions)) in
  Lodash.merge (barOptions dark_theme) (Some memoryOptions) = Some options
  /\ array_length (walk yAxes (VObj memoryOptions)) = Some 1%nat
  /\ walk (yAxes ++ [Idx 0; Key "position"%string]) (VObj memoryOptions) = Missing
  /\ walk yAxes (VObj options) <> walk yAxes (VObj memoryOptions)
  /\ array_length (walk yAxes (VObj options)) = Some 1%nat
  /\ walk (yAxes ++ [Idx 0; Key "position"%string]) (VObj options)
     = Found (VStr "right")
  /\ walk (yAxes ++ [Idx 0; Key "ticks"; Key "maxTicksLimit"]%string) (VObj options)
     = Found (VInt 6)
  /\ walk (yAxes ++ [Idx 0; Key "ticks"; Key "stepSize"]%string) (VObj options)
     = Found (VInt 1)
  /\ walk [Key "responsive"%string]
          (VObj (default ∅ (Lodash.merge {[ "responsive"%string := VBool true ]}
                              (Some {[ "responsive"%string := VUndefined ]}))))
     = Found (VBool true).
Proof.
  cbv zeta. split; [apply some_default, is_Some_alt; vm_compute; exact I|].
  split; [vm_compute; reflexivity|]. split; [vm_compute; reflexivity|].
  split.
  { intros E.
    assert (E' : walk ([Key "scales"%string; Key "yAxes"%string] ++ [Idx 0; Key "position"%string])
                      (VObj (default ∅ (Lodash.merge (barOptions dark_theme)
                                          (Some memoryOptions))))
                 = walk ([Key "scales"%string; Key "yAxes"%string] ++ [Idx 0; Key "position"%string])
                        (VObj memoryOptions))
      by (rewrite !walk_app, E; reflexivity).
    vm_compute in E'. discriminate E'. }
  repeat split; vm_compute; reflexivity.
Qed.

(** ** Axis ticks of the option bundles *)

Lemma num_lt_Fin q z : num_lt (Fin q) (of_Z z) = true <-> (q < inject_Z z)%Q.
Proof.
  unfold num_lt, of_Z. rewrite negb_true_iff. split.
  - intros H. apply Qnot_le_lt. intros Hle%Qle_bool_iff. congruence.
  - intros H. apply not_true_is_false. intros Hle%Qle_bool_iff.
    exact (Qlt_not_le _ _ H Hle).
Qed.

Lemma num_lt_Fin_false q z : num_lt (Fin q) (of_Z z) = false <-> (inject_Z z <= q)%Q.
Proof.
  unfold num_lt, of_Z. rewrite negb_false_iff. apply Qle_bool_iff.
Qed.

Lemma is_falsy_Fin q : is_falsy (Fin q) = true <-> (q == 0)%Q.
Proof. apply Qeq_bool_iff. Qed.

Lemma Qabs_below_ten_pow_21 q : (- ten_pow_21 < q)%Q -> (q < 1)%Q -> (Qabs q < ten_pow_21)%Q.
Proof.
  intros Hlo Hhi. apply Qabs_Qlt_condition. split; [assumption|].
  eapply Qlt_trans; [exact Hhi|]. reflexivity.
Qed.

(** C7. For an axis value that reads as the finite number [q], the
    byte-axis tick is the number 0 when [q] is zero; [q.toFixed(3)] when
    [q] is below 1, which shows [q] with exactly three decimals (as long
    as [q] is above [-10^21], where [toFixed] uses fixed notation); and the
    byte-unit scaler's text for [q], called without a precision, when [q]
    is at least 1. *)
Theorem C7_memory_ticks_callback (host : Host) (input : value) (q : Q) :
  parseFloat host (ToString host input) = Fin q ->
  ((q == 0)%Q -> memory_ticks_callback host input = VInt 0)
  /\ (~ (q == 0)%Q -> (q < 1)%Q ->
      memory_ticks_callback host input
      = VStr (toFixed (finite_toString host) (Fin q) 3))
  /\ ((- ten_pow_21 < q)%Q -> (q < 1)%Q ->
      fixed_decimal 3 q (toFixed (finite_toString host) (Fin q) 3))
  /\ ((1 <= q)%Q ->
      memory_ticks_callback host input = VStr (bytesToUnits host (Fin q) None)).
Proof.
  intros Hparse. unfold memory_ticks_callback. rewrite Hparse. repeat split.
  - intros H0%is_falsy_Fin. rewrite H0. reflexivity.
  - intros Hne H1.
    replace (is_falsy (Fin q)) with false
      by (symmetry; apply not_true_is_false; intros E%is_falsy_Fin; contradiction).
    apply (num_lt_Fin q 1) in H1. rewrite H1. reflexivity.
  - intros Hlo H1. apply FormatFacts.toFixed_fixed_decimal; [lia|].
    apply Qabs_below_ten_pow_21; assumption.
  - intros H1.
    replace (is_falsy (Fin q)) with false.
    + apply (num_lt_Fin_false q 1) in H1. rewrite H1. reflexivity.
    + symmetry. apply not_true_is_false. intros E%is_falsy_Fin.
      rewrite E in H1. unfold Qle in H1. cbn in H1. lia.
Qed.

(** C10. When the axis value reads as NaN, or as zero, the byte-axis tick
    is the number 0. *)
Theorem C10_memory_ticks_callback_falsy (host : Host) (input : value) :
  (parseFloat host (ToString host input) = NaN ->
   memory_ticks_callback host input = VInt 0)
  /\ (forall q, parseFloat host (ToString host input) = Fin q -> (q == 0)%Q ->
      memory_ticks_callback host input = VInt 0).
Proof.
  unfold memory_ticks_callback. split.
  - intros ->. reflexivity.
  - intros q -> H0%is_falsy_Fin. rewrite H0. reflexivity.
Qed.

(** C8. For a finite axis value [q], the decimal-axis tick is the
    number 0 when [q] is zero; [q.toFixed(3)] when [q] is below 10;
    [q.toFixed(2)] when [10 <= q < 100]; and [q.toFixed(1)] when
    [q >= 100].  [q.toFixed(k)] shows [q] with exactly [k] decimals (as
    long as the magnitude of [q] is below [10^21], where [toFixed] uses
    fixed notation). *)
Theorem C8_cpu_ticks_callback (host : Host) (q : Q) :
  ((q == 0)%Q -> cpu_ticks_callback host (Fin q) = VInt 0)
  /\ (~ (q == 0)%Q -> (q < 10)%Q ->
      cpu_ticks_callback host (Fin q) = VStr (toFixed (finite_toString host) (Fin q) 3))
  /\ ((10 <= q)%Q -> (q < 100)%Q ->
      cpu_ticks_callback host (Fin q) = VStr (toFixed (finite_toString host) (Fin q) 2))
  /\ ((100 <= q)%Q ->
      cpu_ticks_callback host (Fin q) = VStr (toFixed (finite_toString host) (Fin q) 1))
  /\ (forall k, (0 < k)%nat -> (Qabs q < ten_pow_21)%Q ->
      fixed_decimal k q (toFixed (finite_toString host) (Fin q) k)).
Proof.
  unfold cpu_ticks_callback.
  assert (Hz : (q == 0)%Q -> num_eq (Fin q) (of_Z 0) = true)
    by (intros E; apply Qeq_bool_iff; exact E).
  assert (Hnz : ~ (q == 0)%Q -> num_eq (Fin q) (of_Z 0) = false)
    by (intros E; apply not_true_is_false; intros E'%Qeq_bool_iff; exact (E E')).
  assert (Hpos : forall z, (inject_Z z <= q)%Q -> 0 < z -> ~ (q == 0)%Q).
  { intros z Hle Hlt E. rewrite E in Hle. unfold Qle, inject_Z in Hle. cbn in Hle. lia. }
  repeat split.
  - intros H0. rewrite (Hz H0). reflexivity.
  - intros Hne H10. rewrite (Hnz Hne).
    apply (num_lt_Fin q 10) in H10. rewrite H10. reflexivity.
  - intros H10 H100. rewrite (Hnz (Hpos 10 H10 ltac:(lia))).
    apply (num_lt_Fin_false q 10) in H10. rewrite H10.
    apply (num_lt_Fin q 100) in H100. rewrite H100. reflexivity.
  - intros H100. rewrite (Hnz (Hpos 100 H100 ltac:(lia))).
    assert (H10 : (inject_Z 10 <= q)%Q) by (eapply Qle_trans; [|exact H100]; discriminate).
    apply (num_lt_Fin_false q 10) in H10. rewrite H10.
    apply (num_lt_Fin_false q 100) in H100. rewrite H100. reflexivity.
  - intros k Hk Hq. apply FormatFacts.toFixed_fixed_decimal; assumption.
Qed.

(** ** The theorems at concrete inputs *)

(** C1 on the two sample datasets: only [sample_usage] is kept. *)
Lemma C1_witness :
  sample_data !! "datasets"%string = Some (VArr (VObj <$> [sample_usage; sample_requests]))
  /\ Forall (fun set => is_Some (points set)) [sample_usage; sample_requests]
  /\ exists out : list (gmap string value),
       chartData sample_host sample_data
       = Ok (<["datasets"%string := VArr (VObj <$> out)]> sample_data)
       /\ Forall2 (fun o set =>
                     points o = points set
                     /\ (forall k v, set !! k = Some v -> o !! k = Some v)
                     /\ (forall k, set !! k = None ->
                                   o !! k = dataset_defaults sample_host !! k))
                  out (filter (fun set => nonempty set) [sample_usage; sample_requests])
       /\ dataset_defaults sample_host !! "barPercentage"%string = Some (VInt 1)
       /\ dataset_defaults sample_host !! "categoryPercentage"%string = Some (VInt 1)
       /\ dataset_defaults sample_host !! "borderWidth"%string
          = Some (VObj {[ "top"%string := VInt 3 ]}).
Proof.
  assert (H1 : sample_data !! "datasets"%string
               = Some (VArr (VObj <$> [sample_usage; sample_requests])))
    by apply lookup_singleton_eq.
  assert (H2 : Forall (fun set => is_Some (points set)) [sample_usage; sample_requests])
    by (repeat constructor; apply is_Some_alt; vm_compute; exact I).
  split; [exact H1|]. split; [exact H2|].
  exact (C1_chartData_normalizes sample_host sample_data _ H1 H2).
Defined.

(** C2 on the sample properties: one dataset has points, so the chart
    element is returned. *)
Lemma C2_witness :
  data sample_props !! "datasets"%string
  = Some (VArr (VObj <$> [sample_usage; sample_requests]))
  /\ Forall (fun set => is_Some (points set)) [sample_usage; sample_requests]
  /\ filter (fun set => nonempty set) [sample_usage; sample_requests] <> []
  /\ BarChart sample_host dark_theme sample_props
     = Ok (Chart (cssNames sample_host "BarChart flex box grow column"
                           (className sample_props))
                 (ChartKind_BAR sample_host)
                 (<["datasets"%string :=
                      VArr (VObj <$> ((fun set => set ∪ dataset_defaults sample_host)
                                      <$> filter (fun set => nonempty set)
                                                 [sample_usage; sample_requests]))]>
                    (data sample_props))
                 (Lodash.merge (barOptions dark_theme) (options sample_props))
                 (resolved_plugins sample_host sample_props) (settings sample_props)).
Proof.
  assert (H1 : data sample_props !! "datasets"%string
               = Some (VArr (VObj <$> [sample_usage; sample_requests])))
    by apply lookup_singleton_eq.
  assert (H2 : Forall (fun set => is_Some (points set)) [sample_usage; sample_requests])
    by (repeat constructor; apply is_Some_alt; vm_compute; exact I).
  assert (H4 : filter (fun set => nonempty set) [sample_usage; sample_requests] <> []).
  { intros E. apply (f_equal length) in E. vm_compute in E. discriminate E. }
  split; [exact H1|]. split; [exact H2|]. split; [exact H4|].
  exact (proj2 (C2_no_data_or_chart sample_host dark_theme sample_props _ H1 H2) H4).
Defined.

(** C4 for a label one minute after the current time. *)
Lemma C4_witness :
  let item : gmap string value := {[ "xLabel"%string := VInt 1600000060000 ]} in
  item !! "xLabel"%string = Some (VInt 1600000060000)
  /\ Date_getTime sample_host (VInt 1600000060000) = Fin (inject_Z 1600000060000)
  /\ tooltips_title sample_host (Fin (inject_Z 1600000000000)) [VObj item] = Ok ""%string.
Proof.
  cbv zeta. split; [reflexivity|]. split; [reflexivity|].
  exact (proj1 (C4_tooltips_title sample_host (inject_Z 1600000000000)
                  (inject_Z 1600000060000)
                  {[ "xLabel"%string := VInt 1600000060000 ]} [] (VInt 1600000060000)
                  eq_refl eq_refl)).
Defined.

(** C5 on the first point of [sample_usage], whose [y] is the string
    ["1536"], with the specification's scaler. *)
Lemma C5_witness :
  [VObj sample_usage; VObj sample_requests] !! 0%nat = Some (VObj sample_usage)
  /\ parseInt spec_host (ToString spec_host (VStr "1536")) = of_Z 1536
  /\ parseFloat spec_host (ToString spec_host (VStr "1536")) = Fin (inject_Z 1536)
  /\ memory_tooltips_label spec_host 0 0 (VArr [VObj sample_usage; VObj sample_requests])
     = Ok "Usage: 1.50 KB"%string
  /\ byte_scaled 3 (inject_Z 1536) "1.50 KB"
  /\ cpu_tooltips_label spec_host 0 0 (VArr [VObj sample_usage; VObj sample_requests])
     = Ok "Usage: 1.5e+3"%string
  /\ significant 2 (inject_Z 1536) "1.5e+3".
Proof.
  pose proof (C5_tooltips_label spec_host [VObj sample_usage; VObj sample_requests] 0 0
                sample_usage _ _ (VStr "Usage") (VStr "1536")
                eq_refl eq_refl eq_refl eq_refl eq_refl
                ltac:(discriminate) ltac:(discriminate)) as (Hmem & Hscaled & Hcpu).
  destruct (Hscaled 1536 eq_refl (fun _ _ => eq_refl)) as (bytes & Ebytes & Sbytes).
  destruct (Hcpu (inject_Z 1536) eq_refl) as (cpu & Ecpu & Scpu).
  vm_compute in Ebytes. injection Ebytes as <-.
  vm_compute in Ecpu. injection Ecpu as <-.
  split; [reflexivity|]. split; [reflexivity|]. split; [reflexivity|].
  split; [exact Hmem|]. split; [exact Sbytes|].
  split; [reflexivity|exact Scpu].
Defined.

(** C6 for [memoryOptions] merged onto [barOptions]. *)
Lemma C6_witness :
  let options := default ∅ (Lodash.merge (barOptions dark_theme) (Some memoryOptions)) in
  Lodash.merge (barOptions dark_theme) (Some memoryOptions) = Some options
  /\ (forall p v, walk p (VObj memoryOptions) = Found v -> is_leaf v = true ->
                  walk p (VObj options) = Found v)
  /\ (forall p v, walk p (VObj memoryOptions) = Found v ->
                  (forall w, walk p (VObj (barOptions dark_theme)) <> Found w) ->
                  walk p (VObj options) = Found v)
  /\ (forall p v, walk p (VObj memoryOptions) = Missing ->
                  walk p (VObj (barOptions dark_theme)) = Found v ->
                  walk p (VObj options) = Found v)
  /\ (forall p v, walk p (VObj memoryOptions) = Found VUndefined ->
                  walk p (VObj (barOptions dark_theme)) = Found v ->
                  walk p (VObj options) = Found v).
Proof.
  cbv zeta.
  assert (H : Lodash.merge (barOptions dark_theme) (Some memoryOptions) = Some _)
    by (apply some_default, is_Some_alt; vm_compute; exact I).
  split; [exact H|].
  exact (proj2 (C6_merge_by_key_and_index (barOptions dark_theme) memoryOptions _) H).
Defined.

(** C7 at one half. *)
Lemma C7_witness :
  parseFloat sample_host (ToString sample_host (VNum (Fin (1 # 2)))) = Fin (1 # 2)
  /\ memory_ticks_callback sample_host (VNum (Fin (1 # 2))) = VStr "0.500"
  /\ fixed_decimal 3 (1 # 2) "0.500".
Proof.
  pose proof (C7_memory_ticks_callback sample_host (VNum (Fin (1 # 2))) (1 # 2) eq_refl)
    as (_ & Htick & Hshape & _).
  split; [reflexivity|]. split.
  - apply Htick; [discriminate|reflexivity].
  - apply Hshape; reflexivity.
Defined.

(** C8 at 55. *)
Lemma C8_witness :
  (10 <= 55)%Q /\ (55 < 100)%Q /\ (Qabs 55 < ten_pow_21)%Q
  /\ cpu_ticks_callback sample_host (Fin 55) = VStr "55.00"
  /\ fixed_decimal 2 55 "55.00".
Proof.
  pose proof (C8_cpu_ticks_callback sample_host 55) as (_ & _ & Htick & _ & Hshape).
  assert (H10 : (10 <= 55)%Q) by discriminate.
  assert (H100 : (55 < 100)%Q) by reflexivity.
  assert (H : (Qabs 55 < ten_pow_21)%Q) by reflexivity.
  split; [exact H10|]. split; [exact H100|]. split; [exact H|]. split.
  - exact (Htick H10 H100).
  - exact (Hshape 2%nat ltac:(lia) H).
Defined.

(** C10 at an input that does not read as a number. *)
Lemma C10_witness :
  parseFloat sample_host (ToString sample_host (VStr "abc")) = NaN
  /\ memory_ticks_callback sample_host (VStr "abc") = VInt 0.
Proof.
  split; [reflexivity|].
  exact (proj1 (C10_memory_ticks_callback_falsy sample_host (VStr "abc")) eq_refl).
Defined.

(** * Further properties *)

(** ** The normaliser on arbitrary data *)

Section NormalizerGeneral.

Context (host : Host).

Lemma has_points_Ok e b :
  has_points e = Ok b ->
  exists m d n, e = VObj m /\ m !! "data"%string = Some d
                /\ get_length d = Ok n /\ truthy n = b.
Proof.
  unfold has_points. destruct e as [| | | | | | |m]; try discriminate.
  cbn [get bind]. destruct (m !! "data"%string) as [d|] eqn:Ed; [|discriminate].
  cbn [default id]. destruct (get_length d) as [n| | |] eqn:En; try discriminate.
  cbn [bind]. intros [= <-]. eauto 10.
Qed.

Lemma keeps_with_defaults e :
  keeps e = true -> keeps (with_defaults host e) = true
                   /\ with_defaults host (with_defaults host e) = with_defaults host e.
Proof.
  unfold keeps. destruct (has_points e) as [[]| | |] eqn:E; try discriminate. intros _.
  destruct (has_points_Ok _ _ E) as (m & d & n & -> & Hd & Hn & Ht).
  cbn [with_defaults]. split.
  - unfold has_points. cbn [get bind].
    rewrite (lookup_union_Some_l _ _ _ _ Hd). cbn [default id].
    rewrite Hn. cbn [bind]. rewrite Ht. reflexivity.
  - f_equal. rewrite <- (assoc_L (∪)), (idemp_L (∪)). reflexivity.
Qed.

Lemma filter_sets_Ok sets : forall kept,
  filter_sets sets = Ok kept ->
  Forall (fun e => readable e = true) sets
  /\ kept = filter (fun e => keeps e = true) sets.
Proof.
  induction sets as [|e sets IH]; intros kept H; cbn [filter_sets] in H.
  - injection H as <-. split; [constructor|reflexivity].
  - destruct (has_points e) as [b| | |] eqn:Eb; try discriminate. cbn [bind] in H.
    destruct (filter_sets sets) as [rest| | |]; try discriminate. cbn [bind] in H.
    injection H as <-. destruct (IH rest eq_refl) as [Hall ->]. split.
    + constructor; [|assumption]. unfold readable. rewrite Eb. reflexivity.
    + assert (Hk : keeps e = b) by (unfold keeps; rewrite Eb; destruct b; reflexivity).
      rewrite filter_cons. destruct (decide (keeps e = true)) as [Ht|Hf].
      * rewrite Ht in Hk. subst b. reflexivity.
      * destruct b; [contradiction|reflexivity].
Qed.

Lemma filter_sets_kept sets :
  Forall (fun e => keeps e = true) sets -> filter_sets sets = Ok sets.
Proof.
  induction 1 as [|e sets He _ IH]; [reflexivity|].
  cbn [filter_sets]. unfold keeps in He.
  destruct (has_points e) as [[]| | |]; try discriminate.
  cbn [bind]. rewrite IH. reflexivity.
Qed.

(** Whenever the normaliser returns, [datasets] was an array all of whose
    members had a readable [data.length]; the result holds the members
    with a truthy length, in order, each over the defaults, and every
    other property of the data as it was. *)
Lemma chartData_Ok (data out : gmap string value) :
  chartData host data = Ok out ->
  exists sets,
    data !! "datasets"%string = Some (VArr sets)
    /\ Forall (fun e => readable e = true) sets
    /\ out = <["datasets"%string :=
                 VArr (with_defaults host <$> filter (fun e => keeps e = true) sets)]> data.
Proof.
  unfold chartData, normalize_datasets.
  destruct (data !! "datasets"%string) as [[| | | | | |sets|m]|] eqn:Ed;
    cbn [default id bind]; try discriminate.
  - destruct (filter_sets sets) as [kept| | |] eqn:Ek; try discriminate.
    cbn [bind]. intros [= <-]. destruct (filter_sets_Ok _ _ Ek) as [Hall ->]. eauto.
  - destruct (m !! "filter"%string) as [[]|]; discriminate.
Qed.

End NormalizerGeneral.

(** Normalising normalised data changes nothing. *)
Theorem chartData_idempotent (host : Host) (data out : gmap string value) :
  chartData host data = Ok out -> chartData host out = Ok out.
Proof.
  intros (sets & Hsets & _ & ->)%chartData_Ok.
  set (kept := filter (fun e => keeps e = true) sets).
  assert (Hkept : Forall (fun e => keeps e = true) kept).
  { apply Forall_forall. intros e He. apply list_elem_of_filter in He. tauto. }
  unfold chartData. rewrite lookup_insert_eq. cbn [default id normalize_datasets].
  rewrite filter_sets_kept.
  - cbn [bind]. rewrite insert_insert_eq. do 3 f_equal.
    rewrite <- list_fmap_compose. apply Forall_fmap_ext_1.
    eapply Forall_impl; [exact Hkept|]. intros e He.
    apply (keeps_with_defaults host e He).
  - apply Forall_fmap. eapply Forall_impl; [exact Hkept|]. intros e He.
    apply (keeps_with_defaults host e He).
Qed.

(** A chart element always shows at least one dataset, and only datasets
    with points; the placeholder is returned only when [datasets] is an
    array whose members all have a readable [data.length] that is falsy. *)
Theorem BarChart_outcomes (host : Host) (theme : ThemeColors) (props : Props) :
  (forall cls type chart_data opts plugins rest,
     BarChart host theme props = Ok (Chart cls type chart_data opts plugins rest) ->
     chartData host (data props) = Ok chart_data
     /\ exists shown,
          chart_data !! "datasets"%string = Some (VArr shown)
          /\ shown <> []
          /\ Forall (fun e => keeps e = true) shown)
  /\ (BarChart host theme props = Ok NoMetrics ->
      exists sets,
        data props !! "datasets"%string = Some (VArr sets)
        /\ Forall (fun e => has_points e = Ok false) sets).
Proof.
  unfold BarChart.
  destruct (chartData host (data props)) as [cd| | |] eqn:Ecd;
    [|split; [intros ? ? ? ? ? ?|]; discriminate..].
  destruct (chartData_Ok host _ _ Ecd) as (sets & Hsets & Hread & ->).
  cbn [bind]. rewrite lookup_insert_eq. cbn [default id get_length bind].
  rewrite length_fmap.
  set (kept := filter (fun e => keeps e = true) sets).
  assert (Hkept : Forall (fun e => keeps e = true) kept).
  { apply Forall_forall. intros e He. apply list_elem_of_filter in He. tauto. }
  destruct kept as [|e kept'] eqn:Ek.
  - split; [intros ? ? ? ? ? ?; discriminate|]. intros _. exists sets. split; [assumption|].
    apply Forall_forall. intros e He.
    assert (Hnot : keeps e <> true).
    { intros Hk. assert (Hin : e ∈ filter (fun e => keeps e = true) sets)
        by (apply list_elem_of_filter; auto).
      fold kept in Hin. rewrite Ek in Hin. inversion Hin. }
    rewrite Forall_forall in Hread. specialize (Hread e He).
    unfold keeps in Hnot. unfold readable in Hread.
    destruct (has_points e) as [[]| | |]; try discriminate; [contradiction|reflexivity].
  - split; [|discriminate]. intros cls type chart_data opts plugins rest [= <- <- <- <- <- <-].
    split; [reflexivity|]. eexists. split; [apply lookup_insert_eq|]. split; [discriminate|].
    change (Forall (fun e => keeps e = true) (with_defaults host <$> (e :: kept'))).
    apply Forall_fmap. eapply Forall_impl; [exact Hkept|]. intros e' He'.
    apply (keeps_with_defaults host e' He').
Qed.

Lemma filter_sets_throws pre bad post :
  Forall (fun e => readable e = true) pre ->
  has_points bad = TypeError ->
  filter_sets (pre ++ bad :: post) = TypeError.
Proof.
  intros Hpre Hbad. induction Hpre as [|e pre He _ IH]; cbn [app filter_sets].
  - rewrite Hbad. reflexivity.
  - unfold readable in He. destruct (has_points e); try discriminate.
    cbn [bind]. rewrite IH. reflexivity.
Qed.

(** The component throws a [TypeError], and returns neither the
    placeholder nor a chart, when the data have no [datasets], and when a
    dataset has no [data] (the datasets before it being readable). *)
Theorem BarChart_throws (host : Host) (theme : ThemeColors) (props : Props) :
  (data props !! "datasets"%string = None ->
   chartData host (data props) = TypeError /\ BarChart host theme props = TypeError)
  /\ (forall pre set post,
        data props !! "datasets"%string = Some (VArr (pre ++ VObj set :: post)) ->
        Forall (fun e => readable e = true) pre ->
        set !! "data"%string = None ->
        chartData host (data props) = TypeError
        /\ BarChart host theme props = TypeError).
Proof.
  split.
  - intros Hno. assert (H : chartData host (data props) = TypeError)
      by (unfold chartData; rewrite Hno; reflexivity).
    split; [exact H|]. unfold BarChart. rewrite H. reflexivity.
  - intros pre set post Hsets Hpre Hdata.
    assert (H : chartData host (data props) = TypeError).
    { unfold chartData. rewrite Hsets. cbn [default id normalize_datasets].
      rewrite filter_sets_throws; [reflexivity|assumption|].
      unfold has_points. cbn [get bind]. rewrite Hdata. reflexivity. }
    split; [exact H|]. unfold BarChart. rewrite H. reflexivity.
Qed.

(** ** Tooltip colour swatch *)

(** The index of a tooltip item counts the datasets that are shown, not
    the caller's datasets: the swatch of item [i] is filled with the border
    colour the caller gave the [i]-th dataset with points ([undefined]
    when it gave none), its outline is always ["darkgray"], and an index
    past the shown datasets throws a [TypeError]. *)
Theorem labelColor_of_shown (host : Host) (data out : gmap string value)
    (sets : list value) (i : nat) :
  data !! "datasets"%string = Some (VArr sets) ->
  chartData host data = Ok out ->
  let shown := filter (fun e => keeps e = true) sets in
  (forall e, shown !! i = Some e ->
     exists set, e = VObj set
       /\ tooltips_labelColor out i
          = Ok (VObj {[ "borderColor"%string := VStr "darkgray";
                        "backgroundColor"%string
                          := default VUndefined (set !! "borderColor"%string) ]}))
  /\ (shown !! i = None -> tooltips_labelColor out i = TypeError).
Proof.
  intros Hsets (sets' & Hsets' & _ & ->)%chartData_Ok shown.
  rewrite Hsets in Hsets'. injection Hsets' as <-. fold shown.
  unfold tooltips_labelColor. cbn [get bind]. rewrite lookup_insert_eq.
  cbn [default id at_index bind]. rewrite list_lookup_fmap. split.
  - intros e He. rewrite He. cbn [fmap option_fmap option_map default id].
    assert (Hk : keeps e = true).
    { apply list_elem_of_lookup_2 in He. apply list_elem_of_filter in He. tauto. }
    unfold keeps in Hk. destruct (has_points e) as [[]| | |] eqn:E; try discriminate.
    destruct (has_points_Ok _ _ E) as (m & d & n & -> & _).
    exists m. split; [reflexivity|]. cbn [with_defaults get bind].
    rewrite lookup_union. replace (dataset_defaults host !! "borderColor"%string)
      with (@None value) by reflexivity.
    destruct (m !! "borderColor"%string); reflexivity.
  - intros ->. reflexivity.
Qed.

(** ** Tooltip title at the edges *)

(** The title callback throws a [TypeError] on an empty item list; it
    looks at the first item only; and when the label of that item cannot
    be read as a date, the title is the label, for an item without a label
    the text ["undefined"]. *)
Theorem tooltips_title_edges (host : Host) (now : number) :
  tooltips_title host now [] = TypeError
  /\ (forall item rest,
        tooltips_title host now (item :: rest) = tooltips_title host now [item])
  /\ (forall item rest xLabel,
        get item "xLabel" = Ok xLabel ->
        Date_getTime host xLabel = NaN ->
        tooltips_title host now (item :: rest) = Ok (ToString host xLabel))
  /\ (forall (item : gmap string value) rest,
        item !! "xLabel"%string = None ->
        Date_getTime host VUndefined = NaN ->
        tooltips_title host now (VObj item :: rest) = Ok "undefined"%string).
Proof.
  repeat split.
  - intros item rest xLabel Hget Hdate. unfold tooltips_title.
    cbn [lookup list_lookup default id]. rewrite Hget. cbn [bind]. rewrite Hdate.
    destruct now as [|[]|]; reflexivity.
  - intros item rest Hno Hdate. unfold tooltips_title.
    cbn [lookup list_lookup default id get bind]. rewrite Hno. cbn [default id].
    rewrite Hdate. destruct now as [|[]|]; reflexivity.
Qed.

(** ** Tooltip body lines at the edges *)

(** Both body-line callbacks throw a [TypeError] for a dataset index or a
    point index out of range.  For a point without [y] (a bare number, for
    one) they differ: the memory callback throws, the CPU callback returns
    the label followed by what [toPrecision(2)] makes of ["undefined"]. *)
Theorem tooltips_label_edges (host : Host) (sets : list value)
    (datasetIndex index : nat) :
  (sets !! datasetIndex = None ->
   memory_tooltips_label host datasetIndex index (VArr sets) = TypeError
   /\ cpu_tooltips_label host datasetIndex index (VArr sets) = TypeError)
  /\ (forall (set : gmap string value) pts,
        sets !! datasetIndex = Some (VObj set) ->
        set !! "data"%string = Some (VArr pts) ->
        pts !! index = None ->
        memory_tooltips_label host datasetIndex index (VArr sets) = TypeError
        /\ cpu_tooltips_label host datasetIndex index (VArr sets) = TypeError)
  /\ (forall (set : gmap string value) pts point,
        sets !! datasetIndex = Some (VObj set) ->
        set !! "data"%string = Some (VArr pts) ->
        pts !! index = Some point ->
        get point "y" = Ok VUndefined ->
        memory_tooltips_label host datasetIndex index (VArr sets) = TypeError
        /\ cpu_tooltips_label host datasetIndex index (VArr sets)
           = Ok (ToString host (default VUndefined (set !! "label"%string)) ++ ": "
                 ++ toPrecision (parseFloat host "undefined") 2)%string).
Proof.
  unfold memory_tooltips_label, cpu_tooltips_label, tooltip_point.
  cbn [at_index bind]. split; [|split].
  - intros ->. split; reflexivity.
  - intros set pts -> Hdata Hpts. cbn [default id get bind]. rewrite Hdata.
    cbn [default id at_index bind]. rewrite Hpts. split; reflexivity.
  - intros set pts point -> Hdata Hpts Hy. cbn [default id get bind]. rewrite Hdata.
    cbn [default id at_index bind]. rewrite Hpts. cbn [default id bind fst snd].
    rewrite Hy. split; reflexivity.
Qed.

(** ** Ticks without a label *)

(** A tick other than 0 and 60 has no label when the step is 0 (the
    remainder is then NaN) and when the step is larger in magnitude than
    the index. *)
Theorem formatTimeLabels_no_label (host : Host) (step : Z) (timestamp : string)
    (index : Z) :
  index <> 0 -> index <> 60 ->
  step = 0 \/ Z.abs index < Z.abs step ->
  formatTimeLabels host step timestamp index = ""%string.
Proof.
  intros H0 H60 Hstep. unfold formatTimeLabels.
  destruct (Z.eqb_spec index 0) as [|_]; [contradiction|].
  destruct (Z.eqb_spec index 60) as [|_]; [contradiction|].
  destruct (num_eq (js_rem index step) (of_Z 0)) eqn:E; [|reflexivity].
  apply js_rem_is_zero in E. destruct E as [[_ Hdiv]|[? _]]; [|contradiction].
  destruct Hstep as [->|Hlt].
  - apply Z.divide_0_l in Hdiv. contradiction.
  - apply Z.divide_abs_l, Z.divide_abs_r in Hdiv.
    apply Z.divide_pos_le in Hdiv; lia.
Qed.

(** ** Width of the axis ticks *)



(** An axis value that reads as a number strictly between 0 and 1 gives
    a byte-axis tick of exactly five characters, without any call of the
    byte-unit scaler. *)
Theorem memory_ticks_width (host : Host) (input : value) (q : Q) :
  parseFloat host (ToString host input) = Fin q ->
  (0 < q)%Q -> (q < 1)%Q ->
  exists s, memory_ticks_callback host input = VStr s
            /\ String.length s = 5%nat.
Proof.
  intros Hparse Hpos Hhi. unfold memory_ticks_callback. rewrite Hparse.
  replace (is_falsy (Fin q)) with false.
  2:{ symmetry. apply not_true_is_false. intros E%is_falsy_Fin.
      rewrite E in Hpos. discriminate Hpos. }
  rewrite (proj2 (num_lt_Fin q 1) Hhi). eexists. split; [reflexivity|].
  destruct (WidthFacts.toFixed_positive_length (finite_toString host) 3 q 0 1)
    as (n & Hn & ->); try assumption; try lia.
  { apply Qlt_le_weak. assumption. }
  pose proof (WidthFacts.decimal_digits_at_most n 4 ltac:(lia) ltac:(cbn in *; lia)).
  lia.
Qed.

(** ** Merging twice *)

Module LodashAlgebra.

Import Lodash (mergeValue, sequence, merge_list, merge_props).
Import LodashFacts.

Lemma sequence_fmap_Some (r : gmap string value) : sequence (Some <$> r) = Some r.
Proof.
  unfold sequence. rewrite bool_decide_eq_true_2.
  - f_equal. apply map_eq. intros k. rewrite lookup_omap, lookup_fmap.
    destruct (r !! k); reflexivity.
  - intros k o. rewrite lookup_fmap. destruct (r !! k); intros [= <-]. eauto.
Qed.

Lemma merge_props_again dp sp r :
  (forall k s od y, sp !! k = Some s ->
                    mergeValue s od = Some y -> mergeValue s (Some y) = Some y) ->
  merge_props dp sp = Some r -> merge_props r sp = Some r.
Proof.
  intros IH Hr. unfold merge_props.
  rewrite <- (sequence_fmap_Some r). f_equal.
  apply map_eq. intros k. rewrite lookup_merge, lookup_fmap.
  pose proof (merge_props_lookup _ _ _ k Hr) as H.
  destruct (sp !! k) as [s|] eqn:Es.
  - destruct H as (y & Hy & ->). cbn. rewrite (IH _ _ _ _ Es Hy). reflexivity.
  - destruct (r !! k); reflexivity.
Qed.

Lemma merge_list_again sl : forall dl rl,
  (forall i s od y, sl !! i = Some s ->
                    mergeValue s od = Some y -> mergeValue s (Some y) = Some y) ->
  merge_list dl sl = Some rl -> merge_list rl sl = Some rl.
Proof.
  induction sl as [|s sl IHl]; intros dl rl IH H; cbn [merge_list] in *.
  - reflexivity.
  - destruct (mergeValue s (head dl)) as [y|] eqn:Ey; [|discriminate].
    destruct (merge_list (tail dl) sl) as [ys|] eqn:Eys; [|discriminate].
    injection H as <-. cbn [head tail].
    rewrite (IH 0%nat s _ y eq_refl Ey). cbn.
    rewrite (IHl _ _ (fun i => IH (S i)) Eys). reflexivity.
Qed.

(** Merging a source into what merging it gave changes nothing. *)
Lemma mergeValue_again sv : forall od rv,
  mergeValue sv od = Some rv -> mergeValue sv (Some rv) = Some rv.
Proof.
  remember (size sv) as n eqn:En. revert sv En.
  induction (lt_wf n) as [n _ IH]. intros sv -> od rv Hm.
  destruct sv as [| | | | | |sl|sp];
    try (cbn in Hm; injection Hm as <-; reflexivity).
  - destruct od; cbn in Hm; injection Hm as <-; reflexivity.
  - assert (Hgo : forall dl rl, merge_list dl sl = Some rl -> merge_list rl sl = Some rl).
    { intros dl rl. apply merge_list_again. intros i s od' y Hi.
      eapply IH; [|reflexivity]. eapply size_elem, Hi. }
    rewrite mergeValue_VArr in Hm. rewrite mergeValue_VArr.
    destruct od as [[| | | | | |dl|dp]|];
      try (destruct (dp !! "length"%string); [discriminate|]);
      destruct (merge_list _ sl) as [rl|] eqn:E; try discriminate;
      injection Hm as <-; rewrite (Hgo _ _ E); reflexivity.
  - assert (Hgo : forall dp r, merge_props dp sp = Some r -> merge_props r sp = Some r).
    { intros dp r. apply merge_props_again. intros k s od' y Hk.
      eapply IH; [|reflexivity]. eapply size_prop, Hk. }
    rewrite mergeValue_VObj in Hm. rewrite mergeValue_VObj.
    destruct od as [[| | | | | | |dp]|]; try discriminate;
      destruct (merge_props _ sp) as [r|] eqn:E; try discriminate;
      injection Hm as <-; rewrite (Hgo _ _ E); reflexivity.
Qed.

(** Merging a value into itself changes nothing. *)
Lemma mergeValue_self v : mergeValue v (Some v) = Some v.
Proof. apply (mergeValue_again v None), mergeValue_fresh. Qed.

Lemma merge_list_self l : merge_list l l = Some l.
Proof.
  induction l as [|x l IH]; [reflexivity|].
  cbn [merge_list head tail]. rewrite mergeValue_self. cbn. rewrite IH. reflexivity.
Qed.

Lemma merge_props_into dp sp r :
  (forall k s od y, sp !! k = Some s ->
                    mergeValue s od = Some y -> mergeValue y od = Some y) ->
  merge_props dp sp = Some r -> merge_props dp r = Some r.
Proof.
  intros IH Hr. unfold merge_props.
  rewrite <- (sequence_fmap_Some r). f_equal.
  apply map_eq. intros k. rewrite lookup_merge, lookup_fmap.
  pose proof (merge_props_lookup _ _ _ k Hr) as H.
  destruct (sp !! k) as [s|] eqn:Es.
  - destruct H as (y & Hy & ->). cbn. rewrite (IH _ _ _ _ Es Hy).
    destruct (dp !! k); reflexivity.
  - rewrite H. destruct (dp !! k) as [y|]; [|reflexivity]. cbn.
    rewrite mergeValue_self. reflexivity.
Qed.

Lemma merge_list_into sl : forall dl rl,
  (forall i s od y, sl !! i = Some s ->
                    mergeValue s od = Some y -> mergeValue y od = Some y) ->
  merge_list dl sl = Some rl -> merge_list dl rl = Some rl.
Proof.
  induction sl as [|s sl IHl]; intros dl rl IH H; cbn [merge_list] in H.
  - injection H as <-. apply merge_list_self.
  - destruct (mergeValue s (head dl)) as [y|] eqn:Ey; [|discriminate].
    destruct (merge_list (tail dl) sl) as [ys|] eqn:Eys; [|discriminate].
    injection H as <-. cbn [merge_list].
    rewrite (IH 0%nat s _ y eq_refl Ey). cbn.
    rewrite (IHl _ _ (fun i => IH (S i)) Eys). reflexivity.
Qed.

(** What a merge gave, merged into the same target, is kept as it is. *)
Lemma mergeValue_into sv : forall od rv,
  mergeValue sv od = Some rv -> mergeValue rv od = Some rv.
Proof.
  remember (size sv) as n eqn:En. revert sv En.
  induction (lt_wf n) as [n _ IH]. intros sv -> od rv Hm.
  destruct sv as [| | | | | |sl|sp];
    try (cbn in Hm; injection Hm as <-; reflexivity).
  - destruct od as [o|]; cbn in Hm; injection Hm as <-;
      [apply mergeValue_self|reflexivity].
  - assert (Hgo : forall dl rl, merge_list dl sl = Some rl -> merge_list dl rl = Some rl).
    { intros dl rl. apply merge_list_into. intros i s od' y Hi.
      eapply IH; [|reflexivity]. eapply size_elem, Hi. }
    rewrite mergeValue_VArr in Hm.
    destruct od as [[| | | | | |dl|dp]|];
      try (destruct (dp !! "length"%string) eqn:El; [discriminate|]);
      destruct (merge_list _ sl) as [rl|] eqn:E; try discriminate;
      injection Hm as <-; rewrite mergeValue_VArr, ?El, (Hgo _ _ E); reflexivity.
  - assert (Hgo : forall dp r, merge_props dp sp = Some r -> merge_props dp r = Some r).
    { intros dp r. apply merge_props_into. intros k s od' y Hk.
      eapply IH; [|reflexivity]. eapply size_prop, Hk. }
    rewrite mergeValue_VObj in Hm.
    destruct od as [[| | | | | | |dp]|]; try discriminate;
      destruct (merge_props _ sp) as [r|] eqn:E; try discriminate;
      injection Hm as <-; rewrite mergeValue_VObj, (Hgo _ _ E); reflexivity.
Qed.

End LodashAlgebra.

(** Merging is absorbing: when custom options merge into the defaults,
    merging the same custom options into the result changes nothing, and
    so does merging the result into the defaults. *)
Theorem merge_absorbs (d o r : gmap string value) :
  Lodash.merge d (Some o) = Some r ->
  Lodash.merge r (Some o) = Some r /\ Lodash.merge d (Some r) = Some r.
Proof.
  intros H%LodashFacts.merge_Some. unfold Lodash.merge.
  rewrite (LodashAlgebra.mergeValue_again _ _ _ H).
  rewrite (LodashAlgebra.mergeValue_into _ _ _ H). split; reflexivity.
Qed.

(** The merged options have exactly the names of the defaults and of the
    custom options: the merge removes no option and invents none.  Custom
    options that are empty give the defaults back. *)
Theorem merge_names (d o r : gmap string value) :
  Lodash.merge d (Some o) = Some r ->
  (forall k, is_Some (r !! k) <-> is_Some (d !! k) \/ is_Some (o !! k))
  /\ (o = ∅ -> r = d).
Proof.
  intros H%LodashFacts.merge_Some. rewrite LodashFacts.mergeValue_VObj in H.
  destruct (Lodash.merge_props d o) as [r'|] eqn:E; [|discriminate].
  injection H as ->. split.
  - intros k. pose proof (LodashFacts.merge_props_lookup _ _ _ k E) as H.
    destruct (o !! k) as [s|].
    + destruct H as (y & _ & ->). split; eauto.
    + rewrite H. split; [auto|]. intros [|[? [=]]]; assumption.
  - intros ->. apply map_eq. intros k.
    pose proof (LodashFacts.merge_props_lookup _ _ _ k E) as H.
    rewrite lookup_empty in H. exact H.
Qed.

(** ** The exported bundles in the component *)

Lemma BarChart_options (host : Host) (theme : ThemeColors) (props : Props)
    cls type chart_data opts plugins rest :
  BarChart host theme props = Ok (Chart cls type chart_data opts plugins rest) ->
  opts = Lodash.merge (barOptions theme) (options props).
Proof.
  unfold BarChart. destruct (chartData host (data props)); try discriminate.
  cbn [bind]. destruct (get_length _); try discriminate. cbn [bind].
  destruct (negb _); [discriminate|]. intros [= _ _ _ <- _ _]. reflexivity.
Qed.

(** A chart that is given one of the two exported bundles has, whatever
    the theme, the bundle's tick callback on its only value axis and the
    bundle's body-line callback in its tooltips, next to everything the
    component computes itself: the bundles add options and override none. *)
Theorem BarChart_bundle_options (host : Host) (theme : ThemeColors) (props : Props)
    cls type chart_data opts plugins rest :
  BarChart host theme props = Ok (Chart cls type chart_data opts plugins rest) ->
  (options props = Some memoryOptions ->
   exists o, opts = Some o
     /\ walk [Key "scales"; Key "yAxes"; Idx 0; Key "ticks"; Key "callback"]%string (VObj o)
        = Found (VFun "memoryOptions.scales.yAxes.ticks.callback")
     /\ walk [Key "scales"; Key "yAxes"; Idx 0; Key "ticks"; Key "stepSize"]%string (VObj o)
        = Found (VInt 1)
     /\ walk [Key "tooltips"; Key "callbacks"; Key "label"]%string (VObj o)
        = Found (VFun "memoryOptions.tooltips.callbacks.label")
     /\ own_options_kept theme o)
  /\ (options props = Some cpuOptions ->
      exists o, opts = Some o
        /\ walk [Key "scales"; Key "yAxes"; Idx 0; Key "ticks"; Key "callback"]%string (VObj o)
           = Found (VFun "cpuOptions.scales.yAxes.ticks.callback")
        /\ walk [Key "scales"; Key "yAxes"; Idx 0; Key "ticks"; Key "stepSize"]%string (VObj o)
           = Missing
        /\ walk [Key "tooltips"; Key "callbacks"; Key "label"]%string (VObj o)
           = Found (VFun "cpuOptions.tooltips.callbacks.label")
        /\ own_options_kept theme o)
  /\ (options props = None -> opts = Some (barOptions theme)
                              /\ own_options_kept theme (barOptions theme)).
Proof.
  intros ->%BarChart_options. split; [|split]; intros ->.
  - exists (default ∅ (Lodash.merge (barOptions theme) (Some memoryOptions))).
    split; [apply some_default, is_Some_alt; vm_compute; exact I|].
    unfold own_options_kept. repeat split; vm_compute; reflexivity.
  - exists (default ∅ (Lodash.merge (barOptions theme) (Some cpuOptions))).
    split; [apply some_default, is_Some_alt; vm_compute; exact I|].
    unfold own_options_kept. repeat split; vm_compute; reflexivity.
  - split; [reflexivity|].
    unfold own_options_kept. repeat split; vm_compute; reflexivity.
Qed.

(** ** The further properties at concrete inputs *)

Lemma returns_returned {A} (d : A) (r : result A) :
  returns r = true -> r = Ok (returned d r).
Proof. destruct r; [reflexivity|discriminate..]. Qed.

(** Normalising the sample data twice. *)
Lemma chartData_idempotent_witness :
  let out := returned ∅ (chartData sample_host sample_data) in
  chartData sample_host sample_data = Ok out
  /\ chartData sample_host out = Ok out.
Proof.
  cbv zeta.
  assert (H : chartData sample_host sample_data
              = Ok (returned ∅ (chartData sample_host sample_data)))
    by (apply returns_returned; vm_compute; reflexivity).
  split; [exact H|].
  exact (chartData_idempotent sample_host sample_data _ H).
Defined.

(** The sample properties give a chart, properties with empty datasets
    the placeholder. *)
Lemma BarChart_outcomes_witness :
  let chart_data := returned ∅ (chartData sample_host sample_data) in
  BarChart sample_host dark_theme sample_props
  = Ok (Chart (VStr "BarChart flex box grow column") (VStr "bar") chart_data
              (Lodash.merge (barOptions dark_theme) (Some memoryOptions))
              (VArr [VFun "ZebraStripes"]) ∅)
  /\ BarChart sample_host dark_theme idle_props = Ok NoMetrics
  /\ (exists shown,
        chart_data !! "datasets"%string = Some (VArr shown)
        /\ shown <> []
        /\ Forall (fun e => keeps e = true) shown)
  /\ (exists sets,
        data idle_props !! "datasets"%string = Some (VArr sets)
        /\ Forall (fun e => has_points e = Ok false) sets).
Proof.
  cbv zeta.
  assert (Hdata : chartData sample_host sample_data
              = Ok (returned ∅ (chartData sample_host sample_data)))
    by (apply returns_returned; vm_compute; reflexivity).
  assert (Hlen : get_length
                   (default VUndefined
                      (returned ∅ (chartData sample_host sample_data) !! "datasets"%string))
                 = Ok (VInt 1))
    by (vm_compute; reflexivity).
  assert (Hchart : BarChart sample_host dark_theme sample_props
                   = Ok (Chart (VStr "BarChart flex box grow column") (VStr "bar")
                               (returned ∅ (chartData sample_host sample_data))
                               (Lodash.merge (barOptions dark_theme) (Some memoryOptions))
                               (VArr [VFun "ZebraStripes"]) ∅)).
  { unfold BarChart. change (data sample_props) with sample_data.
    rewrite Hdata. cbn [bind]. rewrite Hlen. reflexivity. }
  assert (Hidle : BarChart sample_host dark_theme idle_props = Ok NoMetrics)
    by (vm_compute; reflexivity).
  split; [exact Hchart|]. split; [exact Hidle|]. split.
  - exact (proj2 (proj1 (BarChart_outcomes sample_host dark_theme sample_props)
                    _ _ _ _ _ _ Hchart)).
  - exact (proj2 (BarChart_outcomes sample_host dark_theme idle_props) Hidle).
Defined.

(** Properties without data, and properties whose second dataset has no
    [data]. *)
Lemma BarChart_throws_witness :
  let no_data : Props :=
    {| name := VUndefined; data := ∅; className := VUndefined; timeLabelStep := None;
       plugins := None; options := None; settings := ∅ |} in
  BarChart sample_host dark_theme no_data = TypeError
  /\ Forall (fun e => readable e = true) [VObj sample_usage]
  /\ BarChart sample_host dark_theme broken_props = TypeError.
Proof.
  cbv zeta. split; [|split].
  - exact (proj2 (proj1 (BarChart_throws sample_host dark_theme _) (lookup_empty _))).
  - repeat constructor.
  - refine (proj2 (proj2 (BarChart_throws sample_host dark_theme broken_props)
                     [VObj sample_usage] {[ "label"%string := VStr "Limits" ]} []
                     _ _ _)).
    + apply lookup_singleton_eq.
    + repeat constructor.
    + reflexivity.
Defined.

(** The swatch of the first tooltip item of the sample chart, and an item
    past its only shown dataset. *)
Lemma labelColor_of_shown_witness :
  let out := returned ∅ (chartData sample_host sample_data) in
  chartData sample_host sample_data = Ok out
  /\ tooltips_labelColor out 0
     = Ok (VObj {[ "borderColor"%string := VStr "darkgray";
                   "backgroundColor"%string := VStr "#3d90ce" ]})
  /\ tooltips_labelColor out 1 = TypeError.
Proof.
  cbv zeta.
  assert (H : chartData sample_host sample_data
              = Ok (returned ∅ (chartData sample_host sample_data)))
    by (apply returns_returned; vm_compute; reflexivity).
  assert (Hsets : sample_data !! "datasets"%string
                  = Some (VArr [VObj sample_usage; VObj sample_requests]))
    by apply lookup_singleton_eq.
  split; [exact H|]. split.
  - destruct (proj1 (labelColor_of_shown sample_host sample_data _ _ 0 Hsets H)
                (VObj sample_usage) eq_refl) as (set & Hset & Hcolor).
    injection Hset as <-. exact Hcolor.
  - exact (proj2 (labelColor_of_shown sample_host sample_data _ _ 1 Hsets H) eq_refl).
Defined.

(** A label that is no date, and an item without a label. *)
Lemma tooltips_title_edges_witness :
  Date_getTime sample_host (VStr "n/a") = NaN
  /\ tooltips_title sample_host (Fin 0) [VObj {[ "xLabel"%string := VStr "n/a" ]}]
     = Ok "n/a"%string
  /\ tooltips_title sample_host (Fin 0) [VObj ∅] = Ok "undefined"%string.
Proof.
  pose proof (tooltips_title_edges sample_host (Fin 0)) as (_ & _ & Hlabel & Hnone).
  split; [reflexivity|]. split.
  - exact (Hlabel (VObj {[ "xLabel"%string := VStr "n/a" ]}) [] (VStr "n/a")
             eq_refl eq_refl).
  - exact (Hnone ∅ [] (lookup_empty _) eq_refl).
Defined.

(** Indices out of range on the sample datasets, and a dataset of bare
    numbers. *)
Lemma tooltips_label_edges_witness :
  let sets := [VObj sample_usage; VObj sample_requests; VObj sample_bare] in
  memory_tooltips_label sample_host 5 0 (VArr sets) = TypeError
  /\ cpu_tooltips_label sample_host 5 0 (VArr sets) = TypeError
  /\ memory_tooltips_label sample_host 1 0 (VArr sets) = TypeError
  /\ cpu_tooltips_label sample_host 1 0 (VArr sets) = TypeError
  /\ memory_tooltips_label sample_host 2 0 (VArr sets) = TypeError
  /\ cpu_tooltips_label sample_host 2 0 (VArr sets) = Ok "cpu: NaN"%string.
Proof.
  cbv zeta.
  set (sets := [VObj sample_usage; VObj sample_requests; VObj sample_bare]).
  destruct (proj1 (tooltips_label_edges sample_host sets 5 0) eq_refl) as [H1 H2].
  destruct (proj1 (proj2 (tooltips_label_edges sample_host sets 1 0))
              sample_requests [] eq_refl eq_refl eq_refl) as [H3 H4].
  destruct (proj2 (proj2 (tooltips_label_edges sample_host sets 2 0))
              sample_bare [VInt 5] (VInt 5) eq_refl eq_refl eq_refl eq_refl) as [H5 H6].
  repeat split; assumption.
Defined.

(** The default step skips index 7; a step of 0 skips every index but 0
    and 60. *)
Lemma formatTimeLabels_no_label_witness :
  formatTimeLabels sample_host 10 "1600000000000" 7 = ""%string
  /\ formatTimeLabels sample_host 0 "1600000000000" 30 = ""%string.
Proof.
  split.
  - apply formatTimeLabels_no_label; lia.
  - apply formatTimeLabels_no_label; lia.
Defined.


(** The byte-axis tick of one half. *)
Lemma memory_ticks_width_witness :
  parseFloat sample_host (ToString sample_host (VNum (Fin (1 # 2)))) = Fin (1 # 2)
  /\ exists s, memory_ticks_callback sample_host (VNum (Fin (1 # 2))) = VStr s
               /\ String.length s = 5%nat.
Proof.
  split; [reflexivity|].
  exact (memory_ticks_width sample_host (VNum (Fin (1 # 2))) (1 # 2)
           eq_refl eq_refl eq_refl).
Defined.

(** The memory options merged twice onto the defaults. *)
Lemma merge_absorbs_witness :
  let options := default ∅ (Lodash.merge (barOptions dark_theme) (Some memoryOptions)) in
  Lodash.merge (barOptions dark_theme) (Some memoryOptions) = Some options
  /\ Lodash.merge options (Some memoryOptions) = Some options
  /\ Lodash.merge (barOptions dark_theme) (Some options) = Some options.
Proof.
  cbv zeta.
  assert (H : Lodash.merge (barOptions dark_theme) (Some memoryOptions) = Some _)
    by (apply some_default, is_Some_alt; vm_compute; exact I).
  split; [exact H|].
  exact (merge_absorbs (barOptions dark_theme) memoryOptions _ H).
Defined.

(** The names of the options of the sample chart. *)
Lemma merge_names_witness :
  let options := default ∅ (Lodash.merge (barOptions dark_theme) (Some cpuOptions)) in
  Lodash.merge (barOptions dark_theme) (Some cpuOptions) = Some options
  /\ forall k, is_Some (options !! k)
               <-> is_Some (barOptions dark_theme !! k) \/ is_Some (cpuOptions !! k).
Proof.
  cbv zeta.
  assert (H : Lodash.merge (barOptions dark_theme) (Some cpuOptions) = Some _)
    by (apply some_default, is_Some_alt; vm_compute; exact I).
  split; [exact H|].
  exact (proj1 (merge_names (barOptions dark_theme) cpuOptions _ H)).
Defined.

(** The options of the sample chart, which is given the memory bundle. *)
Lemma BarChart_bundle_options_witness :
  let options := default ∅ (Lodash.merge (barOptions dark_theme) (Some memoryOptions)) in
  BarChart sample_host dark_theme sample_props
  = Ok (Chart (VStr "BarChart flex box grow column") (VStr "bar")
              (returned ∅ (chartData sample_host sample_data))
              (Lodash.merge (barOptions dark_theme) (Some memoryOptions))
              (VArr [VFun "ZebraStripes"]) ∅)
  /\ walk [Key "scales"; Key "yAxes"; Idx 0; Key "ticks"; Key "callback"]%string
          (VObj options)
     = Found (VFun "memoryOptions.scales.yAxes.ticks.callback")
  /\ own_options_kept dark_theme options.
Proof.
  cbv zeta.
  assert (Hdata : chartData sample_host sample_data
                  = Ok (returned ∅ (chartData sample_host sample_data)))
    by (apply returns_returned; vm_compute; reflexivity).
  assert (Hlen : get_length
                   (default VUndefined
                      (returned ∅ (chartData sample_host sample_data) !! "datasets"%string))
                 = Ok (VInt 1))
    by (vm_compute; reflexivity).
  assert (Hchart : BarChart sample_host dark_theme sample_props
                   = Ok (Chart (VStr "BarChart flex box grow column") (VStr "bar")
                               (returned ∅ (chartData sample_host sample_data))
                               (Lodash.merge (barOptions dark_theme) (Some memoryOptions))
                               (VArr [VFun "ZebraStripes"]) ∅)).
  { unfold BarChart. change (data sample_props) with sample_data.
    rewrite Hdata. cbn [bind]. rewrite Hlen. reflexivity. }
  split; [exact Hchart|].
  destruct (proj1 (BarChart_bundle_options sample_host dark_theme sample_props
                     _ _ _ _ _ _ Hchart) eq_refl)
    as (o & Ho & Hcallback & _ & _ & Hkept).
  assert (Eo : o = default ∅ (Lodash.merge (barOptions dark_theme) (Some memoryOptions)))
    by (rewrite Ho; reflexivity).
  rewrite <- Eo. split; assumption.
Defined.
